(** * Sark: a shallow embedding of the Python sources

    The repository is a thin layer over a disassembler's scripting
    interface.  Three source files are embedded here:

    - [src/sark/qt.py]        (module initialisation and [MenuManager]),
    - [src/sark/code/line.py] ([Comments], [Line]),
    - [src/codecs/proxy.py]   (the codec proxy).

    Every call into the host application (IDA, Qt, the Python run time) is a
    field of a host interface; the code of the repository is written on top
    of it in a small state-and-exception monad.  Host calls are taken to
    return: an exception raised inside the host is modelled only for the
    [import] that [sark.qt] guards with [try]/[finally] and for the file the
    codec proxy loads. *)

From stdpp Require Import base option list strings gmap fin_maps.
From Stdlib Require Import ZArith Ascii String Sorted.

Local Open Scope Z_scope.
Local Open Scope string_scope.

(** ** Python values and exceptions *)

(** The [ea] argument of [Line]: the class object [Line.UseCurrentAddress]
    (the default), [None], or an integer address. *)
Inductive pyea : Type :=
| UseCurrentAddress
| PyNone
| Addr (a : Z).

#[global] Instance pyea_eq_dec : EqDecision pyea.
Proof. solve_decision. Defined.

(** The two [ValueError]s of [Line.__init__], with the values formatted into
    their messages. *)
Inductive value_error : Type :=
| NameAndEa (ea : pyea) (name : string)
| NoneIsNotAnAddress.

(** Exceptions are modelled by class; the argument is what the source formats
    into the message.  [HostRaised] stands for an exception of the host or
    of the Python run time, named by its class. *)
Inductive exn : Type :=
| ValueError (why : value_error)
| MenuAlreadyExists (name : string)
| MenuNotFound (name : string)
| HostRaised (what : string).

(** ** The monad of the embedding: state, exceptions, and divergence *)

Inductive outcome (A : Type) : Type :=
| Returns (a : A)
| Raises (e : exn)
| Diverges.
Arguments Returns {A} a.
Arguments Raises {A} e.
Arguments Diverges {A}.

Definition py (S A : Type) : Type := S -> outcome A * S.

Definition py_ret {S A} (a : A) : py S A := fun s => (Returns a, s).

Definition py_bind {S A B} (m : py S A) (k : A -> py S B) : py S B :=
  fun s =>
    match m s with
    | (Returns a, s') => k a s'
    | (Raises e, s') => (Raises e, s')
    | (Diverges, s') => (Diverges, s')
    end.

Definition raise {S A} (e : exn) : py S A := fun s => (Raises e, s).
Definition get {S} : py S S := fun s => (Returns s, s).
Definition put {S} (s : S) : py S unit := fun _ => (Returns tt, s).
Definition modify {S} (f : S -> S) : py S unit := fun s => (Returns tt, f s).

(** [try: body finally: handler].  The handler runs on the state the body
    left, whatever the body's outcome; the body's outcome is then resumed
    unless the handler does not return normally itself. *)
Definition try_finally {S A} (body : py S A) (handler : py S unit) : py S A :=
  fun s =>
    match body s with
    | (Diverges, s') => (Diverges, s')
    | (r, s') =>
        match handler s' with
        | (Returns _, s'') => (r, s'')
        | (Raises e, s'') => (Raises e, s'')
        | (Diverges, s'') => (Diverges, s'')
        end
    end.

Declare Scope py_scope.
Delimit Scope py_scope with py.
Notation "x <- m ;; k" := (py_bind m (fun x => k))
  (at level 100, m at next level, right associativity) : py_scope.
Notation "m ;;; k" := (py_bind m (fun _ => k))
  (at level 100, right associativity) : py_scope.
Local Open Scope py_scope.

(** * [src/sark/qt.py]: [MenuManager] *)

Module Qt.

(** The host's widget tree.  [gui] is its state, [qobj] the type of the
    references Python holds to host objects (widgets, menus, actions). *)
Class Host (gui qobj : Type) : Type := {
  get_current_tform : gui -> qobj;
  FormToPySideWidget : gui -> qobj -> qobj;
  window : gui -> qobj -> qobj;
  findChild_QMenuBar : gui -> qobj -> qobj;
  addMenu : gui -> qobj -> string -> qobj * gui;
  menuAction : gui -> qobj -> qobj;
  removeAction : gui -> qobj -> qobj -> gui;
}.

Section MenuManager.
Context {gui qobj : Type} `{H : Host gui qobj}.

(** The attributes of a [MenuManager] instance. *)
Record MenuManager : Type := {
  _window : qobj;
  _menu : qobj;
  _menus : gmap string qobj;
}.

(** What a method of the manager can touch: the host and [self]. *)
Record state : Type := {
  host : gui;
  self : MenuManager;
}.

Definition set_menus (m : gmap string qobj) (s : state) : state :=
  {| host := host s;
     self := {| _window := _window (self s); _menu := _menu (self s);
                _menus := m |} |}.

Definition set_host (g : gui) (s : state) : state :=
  {| host := g; self := self s |}.

(** Host calls as actions. *)
Definition QMenuBar_addMenu (bar : qobj) (name : string) : py state qobj :=
  fun s => let '(menu, g) := addMenu (host s) bar name in
           (Returns menu, set_host g s).

Definition QMenu_menuAction (menu : qobj) : py state qobj :=
  fun s => (Returns (menuAction (host s) menu), s).

Definition QMenuBar_removeAction (bar action : qobj) : py state unit :=
  fun s => (Returns tt, set_host (removeAction (host s) bar action) s).

(** [get_window()] *)
Definition get_window (g : gui) : qobj :=
  let tform := get_current_tform g in
  let widget := FormToPySideWidget g tform in
  window g widget.

(** [MenuManager.__init__] *)
Definition init (g : gui) : state :=
  let w := get_window g in
  {| host := g;
     self := {| _window := w; _menu := findChild_QMenuBar g w;
                _menus := ∅ |} |}.

(** [name in self._menus] *)
Definition contains (m : gmap string qobj) (name : string) : bool :=
  bool_decide (is_Some (m !! name)).

(** [MenuManager.add_menu] *)
Definition add_menu (name : string) : py state unit :=
  s <- get ;;
  if contains (_menus (self s)) name then
    raise (MenuAlreadyExists name)
  else
    menu <- QMenuBar_addMenu (_menu (self s)) name ;;
    modify (set_menus (<[name := menu]> (_menus (self s)))).

(** [MenuManager.remove_menu]; [self._menus[name]] cannot raise [KeyError]
    after the membership test, the default of the lookup is never used. *)
Definition remove_menu (name : string) : py state unit :=
  s <- get ;;
  if negb (contains (_menus (self s)) name) then
    raise (MenuNotFound name)
  else
    match _menus (self s) !! name with
    | Some menu =>
        action <- QMenu_menuAction menu ;;
        QMenuBar_removeAction (_menu (self s)) action
    | None => raise (HostRaised "KeyError")
    end.

(** The body of the [for] loop of [clear], over the values of the dict. *)
Fixpoint clear_loop (bar : qobj) (values : list qobj) : py state unit :=
  match values with
  | [] => py_ret tt
  | menu :: rest =>
      action <- QMenu_menuAction menu ;;
      QMenuBar_removeAction bar action ;;;
      clear_loop bar rest
  end.

(** [MenuManager.clear]; [itervalues] is taken in the order of
    [map_to_list] (Python 2 leaves the order of a dict unspecified). *)
Definition clear : py state unit :=
  s <- get ;;
  clear_loop (_menu (self s)) (snd <$> map_to_list (_menus (self s))).

End MenuManager.

Arguments MenuManager : clear implicits.
Arguments state : clear implicits.

(** A small widget tree to run the manager on: the menu bar is the list of
    the actions it shows, and fresh objects are numbered. *)
Record ref_gui : Type := {
  bar_actions : list nat;
  next_object : nat;
}.

#[global] Instance ref_host : Host ref_gui nat := {
  get_current_tform _ := 0%nat;
  FormToPySideWidget _ _ := 1%nat;
  window _ _ := 2%nat;
  findChild_QMenuBar _ _ := 3%nat;
  addMenu g _ _ :=
    (next_object g,
     {| bar_actions := bar_actions g ++ [next_object g];
        next_object := S (next_object g) |});
  menuAction _ menu := menu;
  removeAction g _ action :=
    {| bar_actions := filter (fun a => a ≠ action) (bar_actions g);
       next_object := next_object g |};
}.

Definition ref_gui0 : ref_gui := {| bar_actions := []; next_object := 10 |}.

End Qt.

(** * [src/sark/qt.py]: module initialisation *)

Module QtInit.

(** The interpreter as far as the top of [sark/qt.py] can see it: the list
    bound to [sys.path], and everything else ([rest]: loaded modules, ...). *)
Record interp (R : Type) : Type := {
  sys_path : list string;
  rest : R;
}.
Arguments sys_path {R} i.
Arguments rest {R} i.

(** What the run time and the host supply.  The [import] statement may
    change the whole interpreter, [sys.path] included, and either completes
    ([None]) or raises ([Some e]). *)
Class Runtime (R : Type) : Type := {
  idaapi___file__ : interp R -> string;
  dirname : string -> string;
  import_PySide : interp R -> option exn * interp R;
}.

Section ModuleInit.
Context {R : Type} `{RT : Runtime R}.

Definition set_sys_path (p : list string) (i : interp R) : interp R :=
  {| sys_path := p; rest := rest i |}.

(** [sys.path.insert(0, x)] *)
Definition sys_path_insert_0 (x : string) (i : interp R) : interp R :=
  set_sys_path (x :: sys_path i) i.

(** The interpreter as the [import] statement finds it: [sys.path] starts
    with the directory of [idaapi]. *)
Definition patched (i : interp R) : interp R :=
  sys_path_insert_0 (dirname (idaapi___file__ i)) i.

(** [from PySide import QtGui, QtCore] *)
Definition from_PySide_import : py (interp R) unit :=
  fun i =>
    match import_PySide i with
    | (None, i') => (Returns tt, i')
    | (Some e, i') => (Raises e, i')
    end.

(** Lines 11-17 of [sark/qt.py]. *)
Definition module_init : py (interp R) unit :=
  i <- get ;;
  let old_path := sys_path i in
  try_finally
    (i <- get ;;
     let ida_python_path := dirname (idaapi___file__ i) in
     modify (sys_path_insert_0 ida_python_path) ;;;
     from_PySide_import)
    (modify (set_sys_path old_path)).

End ModuleInit.

(** A run time for examples.  [rest] tells whether IDA ships a working
    PySide.  The import completes when it does and [sys.path] mentions
    IDA's directory; completing or not, it leaves an entry behind on
    [sys.path]. *)
#[global] Instance ref_runtime : Runtime bool := {
  idaapi___file__ _ := "/opt/ida/python/idaapi.py";
  dirname _ := "/opt/ida/python";
  import_PySide i :=
    if bool_decide ("/opt/ida/python" ∈ sys_path i) && rest i then
      (None, {| sys_path := sys_path i ++ ["/opt/ida/python/PySide"];
                rest := rest i |})
    else
      (Some (HostRaised "ImportError"),
       {| sys_path := "/tmp/partial" :: sys_path i; rest := rest i |});
}.

End QtInit.

(** * [src/sark/code/line.py] *)

Module Ida.

(** The calls the facade makes into the host, as they appear in the log. *)
Inductive host_call : Type :=
| idaapi_get_item_head (ea : Z)
| idaapi_get_item_size (ea : Z)
| idaapi_getFlags (ea : Z)
| idc_LocByName (name : string)
| idc_here
| idc_Comment (ea : Z)
| idc_RptCmt (ea : Z)
| idc_LineA (ea : Z) (index : nat)
| idc_LineB (ea : Z) (index : nat)
| idc_MakeComm (ea : Z) (comment : string)
| idc_MakeRptCmt (ea : Z) (comment : string)
| idc_ExtLinA (ea : Z) (index : nat) (line : string)
| idc_ExtLinB (ea : Z) (index : nat) (line : string)
| idc_DelExtLnA (ea : Z) (index : nat)
| idc_DelExtLnB (ea : Z) (index : nat)
| idc_GetDisasm (ea : Z)
| idc_Name (ea : Z)
| idc_MakeName (ea : Z) (name : string)
| idc_GetColor (ea what : Z)
| idc_SetColor (ea what color : Z)
| idaapi_isCode (flags : Z)
| idaapi_isData (flags : Z)
| idaapi_isUnknown (flags : Z)
| idaapi_isTail (flags : Z)
| idautils_XrefsFrom (ea : Z)
| idautils_XrefsTo (ea : Z)
| idautils_DataRefsFrom (ea : Z)
| idautils_DataRefsTo (ea : Z)
| idautils_CodeRefsFrom (ea flow : Z)
| idautils_CodeRefsTo (ea flow : Z).

(** The host database [idb] and the single-call APIs the facade uses.
    Reads that may answer [None] in Python answer an [option]. *)
Class Host (idb : Type) : Type := {
  get_item_head : idb -> Z -> Z;
  get_item_size : idb -> Z -> Z;
  getFlags : idb -> Z -> Z;
  LocByName : idb -> string -> Z;
  here : idb -> Z;
  Comment : idb -> Z -> option string;
  RptCmt : idb -> Z -> option string;
  LineA : idb -> Z -> nat -> option string;
  LineB : idb -> Z -> nat -> option string;
  MakeComm : idb -> Z -> string -> idb;
  MakeRptCmt : idb -> Z -> string -> idb;
  ExtLinA : idb -> Z -> nat -> string -> idb;
  ExtLinB : idb -> Z -> nat -> string -> idb;
  DelExtLnA : idb -> Z -> nat -> idb;
  DelExtLnB : idb -> Z -> nat -> idb;
  GetDisasm : idb -> Z -> string;
  Name : idb -> Z -> string;
  MakeName : idb -> Z -> string -> idb;
  CIC_ITEM : Z;
  GetColor : idb -> Z -> Z -> Z;
  SetColor : idb -> Z -> Z -> Z -> idb;
  (** [str.splitlines] of the Python run time, used by the setters of the
      extra lines. *)
  splitlines : string -> list string;
}.

(** The state a property of the facade runs in: the database and the log of
    the host calls made so far (oldest first). *)
Record world (idb : Type) : Type := {
  db : idb;
  log : list host_call;
}.
Arguments db {idb} w.
Arguments log {idb} w.

Section Calls.
Context {idb : Type}.

(** A host call that reads the database. *)
Definition query {A} (c : host_call) (f : idb -> A) : py (world idb) A :=
  fun w => (Returns (f (db w)), {| db := db w; log := log w ++ [c] |}).

(** A host call that changes the database. *)
Definition command (c : host_call) (f : idb -> idb) : py (world idb) unit :=
  fun w => (Returns tt, {| db := f (db w); log := log w ++ [c] |}).

(** Running out of fuel in a loop whose end the host decides. *)
Definition out_of_fuel {A} : py (world idb) A := fun w => (Diverges, w).

Definition fresh (d : idb) : world idb := {| db := d; log := [] |}.
End Calls.

End Ida.

(** [sep.join(l)] *)
Fixpoint join (sep : string) (l : list string) : string :=
  match l with
  | [] => ""
  | x :: rest =>
      match rest with
      | [] => x
      | _ :: _ => x ++ sep ++ join sep rest
      end
  end.

(** The one-character string ["\n"]. *)
Definition newline : string := String (ascii_of_nat 10) EmptyString.

(** [str.splitlines()] of Python 2 on a byte string: lines end at ["\n"],
    ["\r"] or ["\r\n"]; no empty last line. *)
Fixpoint splitlines_from (cur : string) (s : string) : list string :=
  match s with
  | EmptyString => if bool_decide (cur = "") then [] else [cur]
  | String c rest =>
      if bool_decide (c = ascii_of_nat 10) then cur :: splitlines_from "" rest
      else if bool_decide (c = ascii_of_nat 13) then
        match rest with
        | String c' rest' =>
            if bool_decide (c' = ascii_of_nat 10)
            then cur :: splitlines_from "" rest'
            else cur :: splitlines_from "" rest
        | EmptyString => [cur]
        end
      else splitlines_from (cur ++ String c "") rest
  end.

Definition str_splitlines (s : string) : list string := splitlines_from "" s.

Module Comments.
Import Ida.

(** [Comments.__init__] only stores its argument. *)
Record t : Type := { _ea : Z }.

Definition init (ea : Z) : t := {| _ea := ea |}.

Section Properties.
Context {idb : Type} `{H : Host idb}.

Definition regular (self : t) : py (world idb) (option string) :=
  query (idc_Comment (_ea self)) (fun d => Comment d (_ea self)).

Definition set_regular (self : t) (comment : string) : py (world idb) unit :=
  command (idc_MakeComm (_ea self) comment)
          (fun d => MakeComm d (_ea self) comment).

Definition repeat (self : t) : py (world idb) (option string) :=
  query (idc_RptCmt (_ea self)) (fun d => RptCmt d (_ea self)).

Definition set_repeat (self : t) (comment : string) : py (world idb) unit :=
  command (idc_MakeRptCmt (_ea self) comment)
          (fun d => MakeRptCmt d (_ea self) comment).

(** [iter(lines.next, None)] over
    [(idc.LineA(self._ea, index) for index in itertools.count())]:
    the host is asked for line [index], [index + 1], ... until it answers
    [None].  Each question costs one unit of fuel. *)
Fixpoint anterior_lines (fuel : nat) (ea : Z) (index : nat)
  : py (world idb) (list string) :=
  match fuel with
  | O => out_of_fuel
  | S fuel' =>
      line <- query (idc_LineA ea index) (fun d => LineA d ea index) ;;
      match line with
      | None => py_ret []
      | Some l =>
          more <- anterior_lines fuel' ea (S index) ;;
          py_ret (l :: more)
      end
  end.

Definition anterior (fuel : nat) (self : t) : py (world idb) string :=
  lines <- anterior_lines fuel (_ea self) 0 ;;
  py_ret (join newline lines).

Fixpoint posterior_lines (fuel : nat) (ea : Z) (index : nat)
  : py (world idb) (list string) :=
  match fuel with
  | O => out_of_fuel
  | S fuel' =>
      line <- query (idc_LineB ea index) (fun d => LineB d ea index) ;;
      match line with
      | None => py_ret []
      | Some l =>
          more <- posterior_lines fuel' ea (S index) ;;
          py_ret (l :: more)
      end
  end.

Definition posterior (fuel : nat) (self : t) : py (world idb) string :=
  lines <- posterior_lines fuel (_ea self) 0 ;;
  py_ret (join newline lines).

(** [for index, line in enumerate(lines): idc.ExtLinA(ea, index, line)];
    the result is the value [index] is left with ([last] when the list is
    empty). *)
Fixpoint ExtLinA_loop (ea : Z) (index last : nat) (lines : list string)
  : py (world idb) nat :=
  match lines with
  | [] => py_ret last
  | line :: more =>
      command (idc_ExtLinA ea index line) (fun d => ExtLinA d ea index line) ;;;
      ExtLinA_loop ea (S index) index more
  end.

(** The function under the [updates_ui] decorator (the decorator lives in
    [sark/ui.py]). *)
Definition set_anterior (self : t) (comment : string) : py (world idb) unit :=
  index <- ExtLinA_loop (_ea self) 0 0 (splitlines comment) ;;
  command (idc_DelExtLnA (_ea self) (index + 1))
          (fun d => DelExtLnA d (_ea self) (index + 1)).

Fixpoint ExtLinB_loop (ea : Z) (index last : nat) (lines : list string)
  : py (world idb) nat :=
  match lines with
  | [] => py_ret last
  | line :: more =>
      command (idc_ExtLinB ea index line) (fun d => ExtLinB d ea index line) ;;;
      ExtLinB_loop ea (S index) index more
  end.

Definition set_posterior (self : t) (comment : string) : py (world idb) unit :=
  index <- ExtLinB_loop (_ea self) 0 0 (splitlines comment) ;;
  command (idc_DelExtLnB (_ea self) (index + 1))
          (fun d => DelExtLnB d (_ea self) (index + 1)).

End Properties.
End Comments.

Module Line.
Import Ida.

(** The attributes of a [Line] instance. *)
Record t : Type := {
  _ea : Z;
  _comments : Comments.t;
}.

(** [0xFFFFFFFF], the value the source compares the host colour with. *)
Definition NO_COLOR : Z := 0xFFFFFFFF.

Section Properties.
Context {idb : Type} `{H : Host idb}.

(** The [if]/[elif] chain of [Line.__init__], which rebinds [ea]:
    - a name and an [ea] other than [UseCurrentAddress]: [ValueError];
    - a name alone: [idc.LocByName(name)];
    - no name, [ea == UseCurrentAddress]: [idc.here()];
    - no name, [ea is None]: [ValueError];
    - otherwise [ea] is kept. *)
Definition resolve (ea : pyea) (name : option string) : py (world idb) Z :=
  match name, ea with
  | Some n, UseCurrentAddress => query (idc_LocByName n) (fun d => LocByName d n)
  | Some n, _ => raise (ValueError (NameAndEa ea n))
  | None, UseCurrentAddress => query idc_here here
  | None, PyNone => raise (ValueError NoneIsNotAnAddress)
  | None, Addr a => py_ret a
  end.

(** [Line.__init__] *)
Definition init (ea : pyea) (name : option string) : py (world idb) t :=
  ea <- resolve ea name ;;
  head <- query (idaapi_get_item_head ea) (fun d => get_item_head d ea) ;;
  py_ret {| _ea := head; _comments := Comments.init ea |}.

(** The properties [ea] (alias [startEA]) and [comments]. *)
Definition ea (self : t) : Z := _ea self.
Definition comments (self : t) : Comments.t := _comments self.

Definition flags (self : t) : py (world idb) Z :=
  query (idaapi_getFlags (ea self)) (fun d => getFlags d (ea self)).

Definition size (self : t) : py (world idb) Z :=
  query (idaapi_get_item_size (ea self)) (fun d => get_item_size d (ea self)).

Definition endEA (self : t) : py (world idb) Z :=
  size <- size self ;;
  py_ret (ea self + size).


Definition name (self : t) : py (world idb) string :=
  query (idc_Name (ea self)) (fun d => Name d (ea self)).


(** The getter of [color]: [None] for the host colour [0xFFFFFFFF]. *)
Definition color (self : t) : py (world idb) (option Z) :=
  color <- query (idc_GetColor (ea self) CIC_ITEM)
                 (fun d => GetColor d (ea self) CIC_ITEM) ;;
  if bool_decide (color = NO_COLOR) then py_ret None
  else py_ret (Some color).

(** The setter of [color]: [None] is replaced by [0xFFFFFFFF]. *)
Definition set_color (self : t) (color : option Z) : py (world idb) unit :=
  let color := match color with None => NO_COLOR | Some c => c end in
  command (idc_SetColor (ea self) CIC_ITEM color)
          (fun d => SetColor d (ea self) CIC_ITEM color).

(** [Line.next] and [Line.prev] *)
Definition next (self : t) : py (world idb) t :=
  e <- endEA self ;;
  init (Addr e) None.

Definition prev (self : t) : py (world idb) t :=
  init (Addr (ea self - 1)) None.

End Properties.
End Line.

(** The remaining properties of [Line], and the two [__repr__] methods. *)
Module LineRest.
Import Ida.

(** What they need besides [Ida.Host]: the flag tests of [idaapi], the
    cross-reference enumerations of [idautils] (a generator is taken as the
    list it produces), the classes [Xref] of [sark/code/xref.py] and
    [Instruction] of [sark/code/instruction.py] ([Xref] is taken to be a
    total constructor; [Instruction] may do anything, raising included),
    and [repr] and [str.format] of Python for the two templates. *)
Class Host (idb xref_t Xref_t Instruction_t : Type) : Type := {
  isCode : Z -> bool;
  isData : Z -> bool;
  isUnknown : Z -> bool;
  isTail : Z -> bool;
  XrefsFrom : idb -> Z -> list xref_t;
  XrefsTo : idb -> Z -> list xref_t;
  DataRefsFrom : idb -> Z -> list Z;
  DataRefsTo : idb -> Z -> list Z;
  CodeRefsFrom : idb -> Z -> Z -> list Z;
  CodeRefsTo : idb -> Z -> Z -> list Z;
  Xref : xref_t -> Xref_t;
  Instruction : Z -> py (world idb) Instruction_t;
  repr : option string -> string;
  format_Line : Z -> string -> string;
  format_Comments : Z -> string -> string -> string -> string -> string;
}.

Section Properties.
Context {idb xref_t Xref_t Instruction_t : Type}
        `{H : Ida.Host idb} `{HR : Host idb xref_t Xref_t Instruction_t}.














End Properties.
End LineRest.

(** A database to run the facade on.  Items are four bytes long and start
    at multiples of four; comments, extra lines and colours are kept per
    address, a missing colour reading as [0xFFFFFFFF]. *)
Module RefIda.
Import Ida.

Record ref_idb : Type := {
  cursor : Z;
  names : gmap string Z;
  cmts : gmap Z string;
  rpt_cmts : gmap Z string;
  extra_a : gmap Z (list string);
  extra_b : gmap Z (list string);
  colors : gmap (Z * Z) Z;
}.

Definition with_cmts (f : gmap Z string -> gmap Z string) (d : ref_idb) :=
  {| cursor := cursor d; names := names d; cmts := f (cmts d);
     rpt_cmts := rpt_cmts d; extra_a := extra_a d; extra_b := extra_b d;
     colors := colors d |}.

Definition with_rpt_cmts (f : gmap Z string -> gmap Z string) (d : ref_idb) :=
  {| cursor := cursor d; names := names d; cmts := cmts d;
     rpt_cmts := f (rpt_cmts d); extra_a := extra_a d; extra_b := extra_b d;
     colors := colors d |}.

Definition with_extra_a (f : gmap Z (list string) -> gmap Z (list string))
    (d : ref_idb) :=
  {| cursor := cursor d; names := names d; cmts := cmts d;
     rpt_cmts := rpt_cmts d; extra_a := f (extra_a d); extra_b := extra_b d;
     colors := colors d |}.

Definition with_extra_b (f : gmap Z (list string) -> gmap Z (list string))
    (d : ref_idb) :=
  {| cursor := cursor d; names := names d; cmts := cmts d;
     rpt_cmts := rpt_cmts d; extra_a := extra_a d; extra_b := f (extra_b d);
     colors := colors d |}.

Definition with_colors (f : gmap (Z * Z) Z -> gmap (Z * Z) Z) (d : ref_idb) :=
  {| cursor := cursor d; names := names d; cmts := cmts d;
     rpt_cmts := rpt_cmts d; extra_a := extra_a d; extra_b := extra_b d;
     colors := f (colors d) |}.

(** Writing line [index] of a block of extra lines (pads with empty lines). *)
Definition put_line (index : nat) (line : string) (l : list string) : list string :=
  (take index (l ++ replicate (index - List.length l) "") ++ [line]
     ++ drop (S index) l)%list.

#[global] Instance ref_host : Host ref_idb := {
  get_item_head _ ea := ea - ea `mod` 4;
  get_item_size _ _ := 4;
  getFlags _ _ := 0;
  LocByName d n := default (-1) (names d !! n);
  here d := cursor d;
  Comment d ea := cmts d !! ea;
  RptCmt d ea := rpt_cmts d !! ea;
  LineA d ea i := default [] (extra_a d !! ea) !! i;
  LineB d ea i := default [] (extra_b d !! ea) !! i;
  MakeComm d ea c := with_cmts <[ea := c]> d;
  MakeRptCmt d ea c := with_rpt_cmts <[ea := c]> d;
  ExtLinA d ea i l :=
    with_extra_a (fun m => <[ea := put_line i l (default [] (m !! ea))]> m) d;
  ExtLinB d ea i l :=
    with_extra_b (fun m => <[ea := put_line i l (default [] (m !! ea))]> m) d;
  DelExtLnA d ea i :=
    with_extra_a (fun m => <[ea := take i (default [] (m !! ea))]> m) d;
  DelExtLnB d ea i :=
    with_extra_b (fun m => <[ea := take i (default [] (m !! ea))]> m) d;
  GetDisasm _ _ := "nop";
  Name _ _ := "";
  MakeName d _ _ := d;
  CIC_ITEM := 1;
  GetColor d ea what := default Line.NO_COLOR (colors d !! (ea, what));
  SetColor d ea what c := with_colors <[(ea, what) := c]> d;
  splitlines := str_splitlines;
}.

(** A database with two anterior lines and one posterior line at [0x1002],
    a comment at [0x1000] and another at [0x1002]. *)
Definition idb0 : ref_idb := {|
  cursor := 0x1000;
  names := {[ "main" := 0x1000 ]};
  cmts := {[ 0x1000 := "head" ; 0x1002 := "tail" ]};
  rpt_cmts := ∅;
  extra_a := {[ 0x1002 := ["first"; "second"] ]};
  extra_b := {[ 0x1002 := ["after"] ]};
  colors := ∅;
  |}.

End RefIda.

(** * [src/codecs/proxy.py] *)

Module Proxy.

(** [s.split(sep)] for a separator of one character: the pieces between the
    occurrences of [sep], never an empty list. *)
Fixpoint split (sep : ascii) (s : string) : list string :=
  match s with
  | EmptyString => [EmptyString]
  | String c s' =>
      if bool_decide (c = sep) then EmptyString :: split sep s'
      else
        match split sep s' with
        | [] => [String c EmptyString]
        | piece :: pieces => String c piece :: pieces
        end
  end.

(** [l[-1]]: the last element, [IndexError] on an empty list. *)
Definition index_last {S A} (l : list A) : py S A :=
  match last l with
  | Some x => py_ret x
  | None => raise (HostRaised "IndexError")
  end.

(** A value bound to a global of the proxy module: a string, a module
    object, or any other object. *)
Inductive value (modobj entry : Type) : Type :=
| Str (s : string)
| ModuleObject (m : modobj)
| Object (e : entry).
Arguments Str {modobj entry} s.
Arguments ModuleObject {modobj entry} m.
Arguments Object {modobj entry} e.

(** The interpreter while the module body runs: the namespace of the proxy
    module ([globals]) and everything else ([world]). *)
Record state (S modobj entry : Type) : Type := {
  world : S;
  globals : gmap string (value modobj entry);
}.
Arguments world {S modobj entry} s.
Arguments globals {S modobj entry} s.

(** What the run time supplies: [os.path], [imp.load_source] and attribute
    access on a module object.  [imp.load_source(name, path)] runs the file
    and gives the module object, or raises; it runs the file in the
    namespace of the module registered under [name], which for the proxy's
    own [__name__] is the proxy module, so the file can bind and rebind the
    proxy's globals.  What [codec.getregentry] finds depends on the state
    for the same reason. *)
Class Runtime (S modobj entry : Type) : Type := {
  expandvars : string -> string;
  path_join : string -> string -> string;
  load_source : string -> string -> state S modobj entry ->
                (exn + modobj) * state S modobj entry;
  attr_getregentry : state S modobj entry -> modobj -> option entry;
}.

Section Proxy.
Context {S modobj entry : Type} `{RT : Runtime S modobj entry}.

(** [k = v] at the top level of the module. *)
Definition assign (k : string) (v : value modobj entry)
  : py (state S modobj entry) unit :=
  modify (fun s => {| world := world s; globals := <[k := v]> (globals s) |}).

Definition imp_load_source (name path : string)
  : py (state S modobj entry) modobj :=
  fun s =>
    match load_source name path s with
    | (inr m, s') => (Returns m, s')
    | (inl e, s') => (Raises e, s')
    end.

Definition getattr_getregentry (m : modobj) : py (state S modobj entry) entry :=
  fun s =>
    match attr_getregentry s m with
    | Some e => (Returns e, s)
    | None => (Raises (HostRaised "AttributeError"), s)
    end.

(** Lines 8-16: the four names bound before the file is loaded; the result
    is the value of [codec_path]. *)
Definition bind_names (__name__ : string) : py (state S modobj entry) string :=
  let CODECS_DIR := expandvars "$sarkCodecs" in
  assign "CODECS_DIR" (Str CODECS_DIR) ;;;
  name <- index_last (split "." __name__) ;;
  assign "name" (Str name) ;;;
  let codec_filename := name ++ ".py" in
  assign "codec_filename" (Str codec_filename) ;;;
  let codec_path := path_join CODECS_DIR codec_filename in
  assign "codec_path" (Str codec_path) ;;;
  py_ret codec_path.

(** Lines 18-21: the file is loaded and its [getregentry] bound. *)
Definition load_and_export (__name__ codec_path : string)
  : py (state S modobj entry) unit :=
  codec <- imp_load_source __name__ codec_path ;;
  assign "codec" (ModuleObject codec) ;;;
  getregentry <- getattr_getregentry codec ;;
  assign "getregentry" (Object getregentry).

(** The module body, run with [__name__] bound to the given string. *)
Definition exec (__name__ : string) : py (state S modobj entry) unit :=
  codec_path <- bind_names __name__ ;;
  load_and_export __name__ codec_path.

End Proxy.

(** A run time for examples: POSIX [join], one environment variable, and a
    file system that maps a path to the bindings the file makes when it is
    run.  Module objects are named by their entry in [sys.modules]; there
    is one namespace, the proxy's, and [world] lists what was loaded. *)
Definition posix_join (a b : string) : string :=
  match b with
  | String "/" _ => b
  | _ =>
      if bool_decide (a = "") then b
      else if bool_decide (last (list_ascii_of_string a) = Some "/"%char) then a ++ b
      else a ++ "/" ++ b
  end.

Definition ref_files : gmap string (list (string * value string nat)) :=
  {[ "/opt/codecs/utf_8.py" := [("getregentry", Object 8%nat)] ;
     "/opt/codecs/latin_1.py" :=
       [("getregentry", Object 1%nat); ("name", Str "other")] ;
     "/opt/codecs/empty.py" := [] ]}.

Definition run_file (binds : list (string * value string nat))
    (g : gmap string (value string nat)) : gmap string (value string nat) :=
  foldl (fun g kv => <[fst kv := snd kv]> g) g binds.

#[global] Instance ref_runtime : Runtime (list string) string nat := {
  expandvars s := if bool_decide (s = "$sarkCodecs") then "/opt/codecs" else s;
  path_join := posix_join;
  load_source name path s :=
    match ref_files !! path with
    | Some binds =>
        (inr name, {| world := (world s ++ [name])%list;
                      globals := run_file binds (globals s) |})
    | None => (inl (HostRaised "IOError"), s)
    end;
  attr_getregentry s _ :=
    match globals s !! "getregentry" with
    | Some (Object e) => Some e
    | _ => None
    end;
}.

Definition ref_state0 : state (list string) string nat :=
  {| world := []; globals := ∅ |}.

End Proxy.

(** * Vocabulary of the statements *)

(** The value a run returned, if it returned. *)
Definition value_of {A} (r : outcome A) : option A :=
  match r with
  | Returns a => Some a
  | _ => None
  end.

(** Running one action after another, for [obj.a(); obj.b()]. *)
Definition and_then {S A B} (m : py S A) (k : py S B) : py S B := m ;;; k.

(** The string [s] does not contain the character [sep]. *)
Definition free_of (sep : ascii) (s : string) : Prop :=
  ~ In sep (list_ascii_of_string s).

Module Claims.
Import Ida.


Section Forwarding.
Context {idb : Type} `{H : Host idb}.

(** What the host answers to a call that reads a comment. *)
Definition comment_read (d : idb) (c : host_call) : option (option string) :=
  match c with
  | idc_Comment ea => Some (Comment d ea)
  | idc_RptCmt ea => Some (RptCmt d ea)
  | idc_LineA ea index => Some (LineA d ea index)
  | idc_LineB ea index => Some (LineB d ea index)
  | _ => None
  end.

(** "The getter returns the result of exactly one host call, unmodified":
    run on database [d], the getter logs one call, and what it returns is
    what the host answers to that call. *)
Definition forwards_one_call (d : idb) (getter : py (world idb) (option string))
  : Prop :=
  exists c answer,
    log (snd (getter (fresh d))) = [c] /\
    comment_read d c = Some answer /\
    fst (getter (fresh d)) = Returns answer.

(** A getter whose result is always a string, seen as one that may answer
    [None]. *)
Definition as_optional (getter : py (world idb) string)
  : py (world idb) (option string) :=
  s <- getter ;; py_ret (Some s).

(** The calls [call ea 0], ..., [call ea (n - 1)]. *)
Definition calls_from (call : Z -> nat -> host_call) (ea : Z) (first n : nat)
  : list host_call :=
  call ea <$> seq first n.

Definition logged (cs : list host_call) (w : world idb) : world idb :=
  {| db := db w; log := log w ++ cs |}.
End Forwarding.
End Claims.

(** * Callers of [MenuManager] *)

Module QtUse.
Import Qt.

(** One call on a manager. *)
Inductive call : Type :=
| Add (name : string)
| Remove (name : string)
| Clear.

Section Calls.
Context {gui qobj : Type} `{H : Host gui qobj}.

Definition perform (c : call) : py (state gui qobj) unit :=
  match c with
  | Add name => add_menu name
  | Remove name => remove_menu name
  | Clear => clear
  end.

(** A caller that makes the calls one after the other and goes on after an
    exception ([try: ... except: pass] around each): the state a call
    leaves is the state the next one finds. *)
Fixpoint perform_all (cs : list call) (s : state gui qobj) : state gui qobj :=
  match cs with
  | [] => s
  | c :: cs => perform_all cs (snd (perform c s))
  end.

(** [for name in names: manager.remove_menu(name)] *)
Fixpoint remove_each (names : list string) : py (state gui qobj) unit :=
  match names with
  | [] => py_ret tt
  | name :: names => remove_menu name ;;; remove_each names
  end.

End Calls.
End QtUse.

(** * [src/sark/code/line.py]: the generator [lines] *)

Module Lines.
Import Ida.

Section Lines.
Context {idb : Type} `{H : Host idb}.

(** [fix_addresses] is imported from [sark/core.py]; it replaces a missing
    bound by a bound of the database. *)
Variable fix_addresses : idb -> option Z -> option Z -> Z * Z.

(** The loop of the branch [if not reverse], run to the end of the
    generator: the result lists the lines in the order they are yielded.
    One unit of fuel per test of the loop condition. *)
Fixpoint forward (fuel : nat) (item end_ : Z) : py (world idb) (list Line.t) :=
  match fuel with
  | O => out_of_fuel
  | S fuel' =>
      if bool_decide (item < end_) then
        l <- Line.init (Addr item) None ;;
        size <- query (idaapi_get_item_size item) (fun d => get_item_size d item) ;;
        more <- forward fuel' (item + size) end_ ;;
        py_ret (l :: more)
      else py_ret []
  end.

(** The loop of the branch [else]. *)
Fixpoint backward (fuel : nat) (item start : Z) : py (world idb) (list Line.t) :=
  match fuel with
  | O => out_of_fuel
  | S fuel' =>
      if bool_decide (item > start) then
        l <- Line.init (Addr item) None ;;
        head <- query (idaapi_get_item_head (item - 1))
                      (fun d => get_item_head d (item - 1)) ;;
        more <- backward fuel' head start ;;
        py_ret (l :: more)
      else py_ret []
  end.

(** [lines(start, end, reverse)] *)
Definition lines (fuel : nat) (start end_ : option Z) (reverse : bool)
  : py (world idb) (list Line.t) :=
  w <- get ;;
  let '(start, end_) := fix_addresses (db w) start end_ in
  if negb reverse then
    item <- query (idaapi_get_item_head start) (fun d => get_item_head d start) ;;
    forward fuel item end_
  else
    item <- query (idaapi_get_item_head (end_ - 1))
                  (fun d => get_item_head d (end_ - 1)) ;;
    backward fuel item start.

End Lines.

(** The address a line was made from (the argument of [Line]). *)
Definition made_from (l : Line.t) : Z := Comments._ea (Line.comments l).

End Lines.

(** * More vocabulary *)

Module Extra.
Import Ida.

Section Writes.
Context {idb : Type}.

(** The database after [ext(ea, first, l0)], [ext(ea, first + 1, l1)], ... *)
Fixpoint write_lines (ext : idb -> Z -> nat -> string -> idb) (ea : Z)
    (first : nat) (ls : list string) (d : idb) : idb :=
  match ls with
  | [] => d
  | l :: ls => write_lines ext ea (S first) ls (ext d ea first l)
  end.

(** The calls [call ea first l0], [call ea (first + 1) l1], ... *)
Fixpoint write_calls (call : Z -> nat -> string -> host_call) (ea : Z)
    (first : nat) (ls : list string) : list host_call :=
  match ls with
  | [] => []
  | l :: ls => call ea first l :: write_calls call ea (S first) ls
  end.

(** A host keeps extra lines as they are written: a line written is the
    line read, writing or deleting line [i] leaves the lines below [i]
    alone, and a deleted line reads as [None]. *)
Definition keeps_lines
    (line : idb -> Z -> nat -> option string)
    (ext : idb -> Z -> nat -> string -> idb)
    (del : idb -> Z -> nat -> idb) : Prop :=
  (forall d ea i l, line (ext d ea i l) ea i = Some l) /\
  (forall d ea i j l, (j < i)%nat -> line (ext d ea i l) ea j = line d ea j) /\
  (forall d ea i, line (del d ea i) ea i = None) /\
  (forall d ea i j, (j < i)%nat -> line (del d ea i) ea j = line d ea j).
End Writes.

(** A database that keeps extra lines per address and index, for the
    witnesses; items are four bytes long. *)
Record sparse_idb : Type := {
  lines_a : Z -> nat -> option string;
  lines_b : Z -> nat -> option string;
}.

Definition update (f : Z -> nat -> option string) (ea : Z) (i : nat)
    (v : option string) : Z -> nat -> option string :=
  fun ea' i' => if bool_decide (ea' = ea /\ i' = i) then v else f ea' i'.

#[global] Instance sparse_host : Host sparse_idb := {
  get_item_head _ ea := ea - ea `mod` 4;
  get_item_size _ _ := 4;
  getFlags _ _ := 0;
  LocByName _ _ := 0;
  here _ := 0;
  Comment _ _ := None;
  RptCmt _ _ := None;
  LineA d ea i := lines_a d ea i;
  LineB d ea i := lines_b d ea i;
  MakeComm d _ _ := d;
  MakeRptCmt d _ _ := d;
  ExtLinA d ea i l :=
    {| lines_a := update (lines_a d) ea i (Some l); lines_b := lines_b d |};
  ExtLinB d ea i l :=
    {| lines_a := lines_a d; lines_b := update (lines_b d) ea i (Some l) |};
  DelExtLnA d ea i :=
    {| lines_a := update (lines_a d) ea i None; lines_b := lines_b d |};
  DelExtLnB d ea i :=
    {| lines_a := lines_a d; lines_b := update (lines_b d) ea i None |};
  GetDisasm _ _ := "";
  Name _ _ := "";
  MakeName d _ _ := d;
  CIC_ITEM := 1;
  GetColor _ _ _ := Line.NO_COLOR;
  SetColor d _ _ _ := d;
  splitlines := str_splitlines;
}.

(** A stand-in for [fix_addresses] of [sark/core.py] in the witnesses: a
    missing bound becomes [0x1000] or [0x1010]. *)
Definition ref_fix_addresses (d : RefIda.ref_idb) (start end_ : option Z)
  : Z * Z :=
  (default 0x1000 start, default 0x1010 end_).

(** An empty database, and one with the anterior lines ["old"; "older"] at
    address [8]. *)
Definition sparse0 : sparse_idb :=
  {| lines_a := fun _ _ => None; lines_b := fun _ _ => None |}.

Definition sparse1 : sparse_idb :=
  ExtLinA (ExtLinA sparse0 8 0 "old") 8 1 "older".

End Extra.

(** * Vocabulary for the facade *)

Module Facade.
Import Ida Claims Extra.

Section Forwarding.
Context {idb : Type} `{H : Host idb}.

(** A read is forwarded: whatever the world, the accessor returns (it does
    not raise), its result is [answer] of the database, the host calls it
    made are [calls], and the database is as it was. *)
Definition reads {A} (m : py (world idb) A) (calls : idb -> list host_call)
    (answer : idb -> A) : Prop :=
  forall w, m w = (Returns (answer (db w)), logged (calls (db w)) w).

(** A write is forwarded: the accessor returns, the host calls it made are
    [calls], and the database is [effect] of what it was. *)
Definition writes (m : py (world idb) unit) (calls : idb -> list host_call)
    (effect : idb -> idb) : Prop :=
  forall w, m w = (Returns tt,
                   {| db := effect (db w); log := log w ++ calls (db w) |}).

(** A read of extra lines is forwarded: either the getter returns, joined by
    newlines, the lines [ls] the host holds at the indices below the first
    one it answers [None] for, having asked for each of these indices once
    and in order; or the fuel is used up, the host having answered a line at
    every index asked.  It never raises and never changes the database. *)
Definition reads_lines (getter : nat -> py (world idb) string)
    (call : nat -> host_call) (line : idb -> nat -> option string) : Prop :=
  forall fuel w,
    (exists ls,
       (forall i, (i <= List.length ls)%nat -> line (db w) i = ls !! i) /\
       (List.length ls < fuel)%nat /\
       getter fuel w =
         (Returns (join newline ls),
          logged (call <$> seq 0 (S (List.length ls))) w)) \/
    ((forall i, (i < fuel)%nat -> is_Some (line (db w) i)) /\
     fst (getter fuel w) = Diverges /\
     db (snd (getter fuel w)) = db w).

(** Every read and write through the [Comments] object [c] is forwarded to
    the host, about the address [a]. *)
Definition comments_forward (c : Comments.t) (a : Z) : Prop :=
  reads (Comments.regular c) (fun _ => [idc_Comment a]) (fun d => Comment d a) /\
  reads (Comments.repeat c) (fun _ => [idc_RptCmt a]) (fun d => RptCmt d a) /\
  reads_lines (fun fuel => Comments.anterior fuel c) (idc_LineA a)
              (fun d => LineA d a) /\
  reads_lines (fun fuel => Comments.posterior fuel c) (idc_LineB a)
              (fun d => LineB d a) /\
  (forall comment,
     writes (Comments.set_regular c comment)
            (fun _ => [idc_MakeComm a comment]) (fun d => MakeComm d a comment)) /\
  (forall comment,
     writes (Comments.set_repeat c comment)
            (fun _ => [idc_MakeRptCmt a comment])
            (fun d => MakeRptCmt d a comment)) /\
  (forall comment,
     let ls := splitlines comment in
     let n := Nat.max 1 (List.length ls) in
     writes (Comments.set_anterior c comment)
            (fun _ => (write_calls idc_ExtLinA a 0 ls ++ [idc_DelExtLnA a n])%list)
            (fun d => DelExtLnA (write_lines ExtLinA a 0 ls d) a n)) /\
  (forall comment,
     let ls := splitlines comment in
     let n := Nat.max 1 (List.length ls) in
     writes (Comments.set_posterior c comment)
            (fun _ => (write_calls idc_ExtLinB a 0 ls ++ [idc_DelExtLnB a n])%list)
            (fun d => DelExtLnB (write_lines ExtLinB a 0 ls d) a n)).

End Forwarding.
End Facade.

(** * Facts about [MenuManager] *)

Section MenuManagerFacts.
Import Qt.
Context {gui qobj : Type} `{H : Host gui qobj}.
Implicit Types (s : state gui qobj) (name : string).

Lemma contains_false (m : gmap string qobj) name :
  contains m name = false <-> m !! name = None.
Proof.
  unfold contains. rewrite bool_decide_eq_false.
  rewrite <- eq_None_not_Some. reflexivity.
Qed.

(** [remove_menu] never touches the attributes of the manager. *)
Lemma remove_menu_self name s : self (snd (remove_menu name s)) = self s.
Proof.
  unfold remove_menu, py_bind, get; simpl.
  destruct (contains (_menus (self s)) name); simpl; [|reflexivity].
  destruct (_menus (self s) !! name); reflexivity.
Qed.

Lemma remove_menu_registered name s menu :
  _menus (self s) !! name = Some menu ->
  remove_menu name s =
    (Returns tt,
     set_host (removeAction (host s) (_menu (self s))
                            (menuAction (host s) menu)) s).
Proof.
  intros Hm. unfold remove_menu, py_bind, get; simpl.
  destruct (contains (_menus (self s)) name) eqn:Hc; simpl.
  - rewrite Hm. reflexivity.
  - apply contains_false in Hc. congruence.
Qed.

Lemma clear_loop_self bar values s :
  fst (clear_loop bar values s) = Returns tt /\
  self (snd (clear_loop bar values s)) = self s.
Proof.
  revert s. induction values as [|menu values IH]; intros s; simpl.
  - split; reflexivity.
  - unfold py_bind, QMenu_menuAction, QMenuBar_removeAction; simpl.
    destruct (IH (set_host (removeAction (host s) bar
                                         (menuAction (host s) menu)) s))
      as [Hr Hs].
    split; [exact Hr | rewrite Hs; reflexivity].
Qed.

(** Neither does [clear]. *)
Lemma clear_self s : fst (clear s) = Returns tt /\ self (snd (clear s)) = self s.
Proof. unfold clear, py_bind, get; simpl. apply clear_loop_self. Qed.

Lemma add_menu_fresh name s :
  _menus (self s) !! name = None ->
  add_menu name s =
    (Returns tt,
     set_menus (<[name := fst (addMenu (host s) (_menu (self s)) name)]>
                  (_menus (self s)))
               (set_host (snd (addMenu (host s) (_menu (self s)) name)) s)).
Proof.
  intros Hm. unfold add_menu, py_bind, get; simpl.
  apply contains_false in Hm. rewrite Hm.
  unfold QMenuBar_addMenu, modify.
  destruct (addMenu (host s) (_menu (self s)) name) as [menu g]; reflexivity.
Qed.

Lemma add_menu_registered name s :
  is_Some (_menus (self s) !! name) ->
  add_menu name s = (Raises (MenuAlreadyExists name), s).
Proof.
  intros Hm. unfold add_menu, py_bind, get; simpl.
  unfold contains. rewrite bool_decide_eq_true_2 by exact Hm. reflexivity.
Qed.

(** C1, on the code: from a new manager, [add_menu(name)] followed by
    [remove_menu(name)] leaves [name] registered, so that the next
    [add_menu(name)] raises [MenuAlreadyExists] and a second
    [remove_menu(name)] does not raise [MenuNotFound]; and [add_menu(name)]
    followed by [clear()] leaves the mapping as it was, not empty. *)
Theorem remove_and_clear_keep_the_mapping (g : gui) name :
  let s1 := snd (add_menu name (init g)) in
  let s2 := snd (remove_menu name s1) in
  fst (add_menu name (init g)) = Returns tt /\
  fst (remove_menu name s1) = Returns tt /\
  is_Some (_menus (self s2) !! name) /\
  fst (add_menu name s2) = Raises (MenuAlreadyExists name) /\
  fst (remove_menu name s2) = Returns tt /\
  fst (clear s1) = Returns tt /\
  _menus (self (snd (clear s1))) = _menus (self s1) /\
  _menus (self (snd (clear s1))) <> ∅.
Proof.
  intros s1 s2.
  assert (Hadd : fst (add_menu name (init g)) = Returns tt)
    by (rewrite add_menu_fresh by apply lookup_empty; reflexivity).
  assert (Hin : is_Some (_menus (self s1) !! name)).
  { subst s1. rewrite add_menu_fresh by apply lookup_empty. simpl.
    rewrite lookup_insert_eq. eauto. }
  assert (Hs2 : self s2 = self s1) by apply remove_menu_self.
  destruct (clear_self s1) as [Hclear Hself].
  repeat split.
  - exact Hadd.
  - destruct Hin as [menu Hin].
    rewrite (remove_menu_registered name s1 menu Hin). reflexivity.
  - rewrite Hs2. exact Hin.
  - rewrite add_menu_registered; [reflexivity|]. rewrite Hs2. exact Hin.
  - rewrite <- Hs2 in Hin. destruct Hin as [menu Hin].
    rewrite (remove_menu_registered name s2 menu Hin). reflexivity.
  - exact Hclear.
  - rewrite Hself. reflexivity.
  - rewrite Hself. intros He. rewrite He, lookup_empty in Hin.
    destruct Hin as [? Hin]. discriminate.
Qed.

(** C2: [add_menu(name)] raises [MenuAlreadyExists] exactly when [name] is
    a key of the mapping; otherwise it returns, the host has performed
    [addMenu(name)] on the manager's menu bar, and the mapping has gained
    [name -> menu] for the menu the host returned. *)
Theorem add_menu_raises_iff_registered name s :
  (fst (add_menu name s) = Raises (MenuAlreadyExists name)
     <-> name ∈ dom (_menus (self s))) /\
  (name ∉ dom (_menus (self s)) ->
     fst (add_menu name s) = Returns tt /\
     host (snd (add_menu name s)) =
       snd (addMenu (host s) (_menu (self s)) name) /\
     _menus (self (snd (add_menu name s))) =
       <[name := fst (addMenu (host s) (_menu (self s)) name)]>
         (_menus (self s)) /\
     _menu (self (snd (add_menu name s))) = _menu (self s) /\
     _window (self (snd (add_menu name s))) = _window (self s)).
Proof.
  split.
  - rewrite elem_of_dom. split.
    + intros Hr. destruct (_menus (self s) !! name) eqn:Hm; [eauto|].
      rewrite add_menu_fresh in Hr by exact Hm. discriminate.
    + intros Hm. rewrite add_menu_registered by exact Hm. reflexivity.
  - intros Hn. rewrite not_elem_of_dom in Hn.
    rewrite add_menu_fresh by exact Hn. simpl. repeat split; reflexivity.
Qed.

(** C7: when [add_menu] or [remove_menu] raises, the mapping, the other
    attributes of the manager and the host are as they were before the
    call. *)
Theorem menu_errors_leave_state_unchanged name s e s' :
  add_menu name s = (Raises e, s') \/ remove_menu name s = (Raises e, s') ->
  s' = s /\
  (e = MenuAlreadyExists name \/ e = MenuNotFound name).
Proof.
  intros [Hr|Hr].
  - destruct (_menus (self s) !! name) eqn:Hm.
    + rewrite add_menu_registered in Hr by eauto.
      inversion Hr; subst. split; [reflexivity | left; reflexivity].
    + rewrite add_menu_fresh in Hr by exact Hm. discriminate.
  - destruct (_menus (self s) !! name) as [menu|] eqn:Hm.
    + rewrite (remove_menu_registered name s menu Hm) in Hr. discriminate.
    + unfold remove_menu, py_bind, get in Hr; simpl in Hr.
      apply contains_false in Hm. rewrite Hm in Hr. simpl in Hr.
      inversion Hr; subst. split; [reflexivity | right; reflexivity].
Qed.

End MenuManagerFacts.

(** C1 at a concrete input: on the reference widget tree, after
    [add_menu("MyMenu")] and [remove_menu("MyMenu")] the menu bar is empty
    again, the mapping still holds ["MyMenu"], and [add_menu("MyMenu")]
    raises. *)
Example MyMenu_cannot_be_added_again :
  let m := Qt.init Qt.ref_gui0 in
  let run := and_then (Qt.add_menu "MyMenu") (Qt.remove_menu "MyMenu") m in
  fst run = Returns tt /\
  Qt.bar_actions (Qt.host (snd run)) = [] /\
  Qt._menus (Qt.self (snd run)) = {[ "MyMenu" := 10%nat ]} /\
  fst (Qt.add_menu "MyMenu" (snd run)) = Raises (MenuAlreadyExists "MyMenu").
Proof. repeat split; vm_compute; reflexivity. Qed.

(** A use of C2's second half: a new manager accepts ["MyMenu"]. *)
Lemma add_menu_raises_iff_registered_witness :
  ("MyMenu" ∉ dom (Qt._menus (Qt.self (Qt.init Qt.ref_gui0)))) /\
  fst (Qt.add_menu "MyMenu" (Qt.init Qt.ref_gui0)) = Returns tt /\
  Qt._menus (Qt.self (snd (Qt.add_menu "MyMenu" (Qt.init Qt.ref_gui0)))) =
    <[ "MyMenu" := 10%nat ]> ∅.
Proof.
  assert (Hn : "MyMenu" ∉ dom (Qt._menus (Qt.self (Qt.init Qt.ref_gui0)))).
  { simpl. rewrite dom_empty_L. apply not_elem_of_empty. }
  split; [exact Hn|].
  destruct (proj2 (add_menu_raises_iff_registered "MyMenu"
                     (Qt.init Qt.ref_gui0)) Hn) as (Hr & _ & Hm & _).
  split; [exact Hr | exact Hm].
Defined.

(** A use of C7: adding ["MyMenu"] a second time raises, and the state after
    the failed call is the state before it. *)
Lemma menu_errors_leave_state_unchanged_witness :
  let s := snd (Qt.add_menu "MyMenu" (Qt.init Qt.ref_gui0)) in
  Qt.add_menu "MyMenu" s
    = (Raises (MenuAlreadyExists "MyMenu"), snd (Qt.add_menu "MyMenu" s)) /\
  snd (Qt.add_menu "MyMenu" s) = s.
Proof.
  intros s.
  assert (Hr : Qt.add_menu "MyMenu" s
               = (Raises (MenuAlreadyExists "MyMenu"),
                  snd (Qt.add_menu "MyMenu" s)))
    by (vm_compute; reflexivity).
  split; [exact Hr|].
  exact (proj1 (menu_errors_leave_state_unchanged "MyMenu" s
                  (MenuAlreadyExists "MyMenu") (snd (Qt.add_menu "MyMenu" s))
                  (or_introl Hr))).
Defined.

(** * Facts about the initialisation of [sark.qt] *)

Section ModuleInitFacts.
Import QtInit.
Context {R : Type} `{RT : Runtime R}.

(** The module body as one step of the interpreter. *)
Lemma module_init_unfold (i : interp R) :
  module_init i =
    (match fst (import_PySide (patched i)) with
     | None => Returns tt
     | Some e => Raises e
     end,
     set_sys_path (sys_path i) (snd (import_PySide (patched i)))).
Proof.
  unfold module_init, try_finally, py_bind, get, modify, from_PySide_import.
  fold (patched i).
  destruct (import_PySide (patched i)) as [[e|] i']; reflexivity.
Qed.

(** C10: after the module body has run, [sys.path] is the list it was
    before, whether the import completed or raised; the import itself ran
    with the directory of [idaapi] in front, its outcome is the outcome of
    the module body, and what else it changed stays changed. *)
Theorem module_init_restores_sys_path (i : interp R) :
  sys_path (snd (module_init i)) = sys_path i /\
  fst (module_init i) =
    match fst (import_PySide (patched i)) with
    | None => Returns tt
    | Some e => Raises e
    end /\
  rest (snd (module_init i)) = rest (snd (import_PySide (patched i))).
Proof.
  rewrite module_init_unfold. simpl. auto.
Qed.

End ModuleInitFacts.

(** On the reference run time: without the patch the import fails; the
    module body makes it succeed when PySide works, and raises when it does
    not; either way [sys.path] comes back. *)
Example module_init_on_reference_runtime :
  let i := {| QtInit.sys_path := ["/usr/lib/python2.7"]; QtInit.rest := true |} in
  let broken := {| QtInit.sys_path := ["/usr/lib/python2.7"]; QtInit.rest := false |} in
  fst (QtInit.from_PySide_import i) = Raises (HostRaised "ImportError") /\
  QtInit.module_init i = (Returns tt, i) /\
  QtInit.module_init broken = (Raises (HostRaised "ImportError"), broken).
Proof. repeat split; vm_compute; reflexivity. Qed.

(** * Facts about [Line] *)

Section LineFacts.
Import Ida Claims.
Context {idb : Type} `{H : Host idb}.
Implicit Types (w : world idb) (a : Z).

(** Constructing a line from an integer address: one host call. *)
Lemma init_at_address a w :
  Line.init (Addr a) None w =
    (Returns {| Line._ea := get_item_head (db w) a;
                Line._comments := Comments.init a |},
     logged [idaapi_get_item_head a] w).
Proof. reflexivity. Qed.




(** C6: [Line(ea).ea] is the host's item head of [ea]; hence two addresses
    with the same item head give lines with the same [ea]. *)
Theorem line_ea_is_item_head a b w :
  Line.ea <$> value_of (fst (Line.init (Addr a) None w))
    = Some (get_item_head (db w) a) /\
  (get_item_head (db w) a = get_item_head (db w) b ->
   Line.ea <$> value_of (fst (Line.init (Addr a) None w))
     = Line.ea <$> value_of (fst (Line.init (Addr b) None w))).
Proof.
  rewrite !init_at_address. simpl. split; [reflexivity|].
  intros ->. reflexivity.
Qed.

(** C9: the sentinel [0xFFFFFFFF].  The getter answers [None] exactly
    when the host colour is the sentinel; the setter stores the sentinel
    for [None]; and a colour other than the sentinel that the host gives
    back as it was stored is read back unchanged. *)
Theorem color_sentinel (l : Line.t) w :
  (fst (Line.color l w) = Returns None
     <-> GetColor (db w) (Line.ea l) CIC_ITEM = 0xFFFFFFFF) /\
  db (snd (Line.set_color l None w))
    = SetColor (db w) (Line.ea l) CIC_ITEM 0xFFFFFFFF /\
  (forall c : Z,
     c <> 0xFFFFFFFF ->
     GetColor (SetColor (db w) (Line.ea l) CIC_ITEM c) (Line.ea l) CIC_ITEM = c ->
     fst (and_then (Line.set_color l (Some c)) (Line.color l) w)
       = Returns (Some c)).
Proof.
  split; [|split].
  - unfold Line.color, py_bind, query; simpl.
    fold Line.NO_COLOR. case_bool_decide as Hc; simpl.
    + split; [intros _; exact Hc | reflexivity].
    + split; [discriminate | intros Hc'; contradiction].
  - reflexivity.
  - intros c Hc Hstore.
    unfold and_then, Line.set_color, Line.color, py_bind, command, query; simpl.
    rewrite Hstore. rewrite bool_decide_eq_false_2 by exact Hc. reflexivity.
Qed.

End LineFacts.


(** A use of C6: [0x1001] and [0x1003] lie in the item at [0x1000]. *)
Lemma line_ea_is_item_head_witness :
  Ida.get_item_head RefIda.idb0 0x1001 = Ida.get_item_head RefIda.idb0 0x1003 /\
  Line.ea <$> value_of (fst (Line.init (Addr 0x1001) None (Ida.fresh RefIda.idb0)))
    = Line.ea <$> value_of (fst (Line.init (Addr 0x1003) None (Ida.fresh RefIda.idb0))).
Proof.
  assert (Hh : Ida.get_item_head RefIda.idb0 0x1001
               = Ida.get_item_head RefIda.idb0 0x1003) by reflexivity.
  split; [exact Hh|].
  exact (proj2 (line_ea_is_item_head 0x1001 0x1003 (Ida.fresh RefIda.idb0)) Hh).
Defined.

(** A use of C9: the reference database gives back the colour [0x00FF00]. *)
Lemma color_sentinel_witness :
  let l := {| Line._ea := 0x1000; Line._comments := Comments.init 0x1000 |} in
  let w := Ida.fresh RefIda.idb0 in
  0x00FF00 <> 0xFFFFFFFF /\
  Ida.GetColor (Ida.SetColor (Ida.db w) (Line.ea l) Ida.CIC_ITEM 0x00FF00)
               (Line.ea l) Ida.CIC_ITEM = 0x00FF00 /\
  fst (and_then (Line.set_color l (Some 0x00FF00)) (Line.color l) w)
    = Returns (Some 0x00FF00).
Proof.
  intros l w.
  assert (Hc : 0x00FF00 <> 0xFFFFFFFF) by discriminate.
  assert (Hs : Ida.GetColor (Ida.SetColor (Ida.db w) (Line.ea l) Ida.CIC_ITEM 0x00FF00)
                            (Line.ea l) Ida.CIC_ITEM = 0x00FF00)
    by (vm_compute; reflexivity).
  split; [exact Hc|]. split; [exact Hs|].
  exact (proj2 (proj2 (color_sentinel l w)) 0x00FF00 Hc Hs).
Defined.

(** * Facts about [Comments] *)

Section CommentsFacts.
Import Ida Claims.
Context {idb : Type} `{H : Host idb}.
Implicit Types (w : world idb) (ea : Z) (ls : list string).

Lemma logged_logged (cs cs' : list host_call) w :
  logged cs' (logged cs w) = logged (cs ++ cs') w.
Proof. unfold logged; simpl. rewrite app_assoc. reflexivity. Qed.

(** One round of either loop, once the host's answer is known. *)
Ltac loop_step Hhost :=
  unfold py_bind, query; simpl; rewrite Hhost; simpl.

(** The loop of [anterior]: if the host holds exactly the lines [ls] from
    [index] on, [List.length ls + 1] questions are asked and [ls] comes
    back. *)
Lemma anterior_lines_collects ea ls :
  forall index fuel w,
    (forall i, (i <= List.length ls)%nat ->
               LineA (db w) ea (index + i) = ls !! i) ->
    (List.length ls < fuel)%nat ->
    Comments.anterior_lines fuel ea index w =
      (Returns ls, logged (calls_from idc_LineA ea index (S (List.length ls))) w).
Proof.
  induction ls as [|l ls IH]; intros index fuel w Hhost Hfuel;
    (destruct fuel as [|fuel]; [lia|]);
    pose proof (Hhost 0%nat ltac:(lia)) as H0;
    rewrite Nat.add_0_r in H0; simpl in H0; simpl Comments.anterior_lines.
  - loop_step H0. reflexivity.
  - loop_step H0.
    assert (Hrest : Comments.anterior_lines fuel ea (S index)
                      (logged [idc_LineA ea index] w)
                    = (Returns ls,
                       logged (calls_from idc_LineA ea (S index)
                                          (S (List.length ls)))
                              (logged [idc_LineA ea index] w))).
    { apply IH; [|simpl in Hfuel; lia].
      intros i Hi. simpl.
      specialize (Hhost (S i) ltac:(simpl; lia)).
      rewrite Nat.add_succ_r in Hhost. exact Hhost. }
    change {| db := db w; log := log w ++ [idc_LineA ea index] |}
      with (logged [idc_LineA ea index] w).
    rewrite Hrest, logged_logged. reflexivity.
Qed.

Lemma posterior_lines_collects ea ls :
  forall index fuel w,
    (forall i, (i <= List.length ls)%nat ->
               LineB (db w) ea (index + i) = ls !! i) ->
    (List.length ls < fuel)%nat ->
    Comments.posterior_lines fuel ea index w =
      (Returns ls, logged (calls_from idc_LineB ea index (S (List.length ls))) w).
Proof.
  induction ls as [|l ls IH]; intros index fuel w Hhost Hfuel;
    (destruct fuel as [|fuel]; [lia|]);
    pose proof (Hhost 0%nat ltac:(lia)) as H0;
    rewrite Nat.add_0_r in H0; simpl in H0; simpl Comments.posterior_lines.
  - loop_step H0. reflexivity.
  - loop_step H0.
    assert (Hrest : Comments.posterior_lines fuel ea (S index)
                      (logged [idc_LineB ea index] w)
                    = (Returns ls,
                       logged (calls_from idc_LineB ea (S index)
                                          (S (List.length ls)))
                              (logged [idc_LineB ea index] w))).
    { apply IH; [|simpl in Hfuel; lia].
      intros i Hi. simpl.
      specialize (Hhost (S i) ltac:(simpl; lia)).
      rewrite Nat.add_succ_r in Hhost. exact Hhost. }
    change {| db := db w; log := log w ++ [idc_LineB ea index] |}
      with (logged [idc_LineB ea index] w).
    rewrite Hrest, logged_logged. reflexivity.
Qed.

(** C4, as the code has it.  [regular] and [repeat] make one host call and
    return its answer as it is.  [anterior] and [posterior] ask the host
    for line 0, 1, 2, ... until it answers [None]: when the host holds the
    lines [ls], they make [List.length ls + 1] calls and return the lines
    joined by newlines (given fuel for that many calls).  None of the four
    changes the database. *)
Theorem comment_getters (self : Comments.t) w :
  Comments.regular self w =
    (Returns (Comment (db w) (Comments._ea self)),
     logged [idc_Comment (Comments._ea self)] w) /\
  Comments.repeat self w =
    (Returns (RptCmt (db w) (Comments._ea self)),
     logged [idc_RptCmt (Comments._ea self)] w) /\
  (forall ls fuel,
     (forall i, (i <= List.length ls)%nat ->
                LineA (db w) (Comments._ea self) i = ls !! i) ->
     (List.length ls < fuel)%nat ->
     Comments.anterior fuel self w =
       (Returns (join newline ls),
        logged (calls_from idc_LineA (Comments._ea self) 0 (S (List.length ls))) w)) /\
  (forall ls fuel,
     (forall i, (i <= List.length ls)%nat ->
                LineB (db w) (Comments._ea self) i = ls !! i) ->
     (List.length ls < fuel)%nat ->
     Comments.posterior fuel self w =
       (Returns (join newline ls),
        logged (calls_from idc_LineB (Comments._ea self) 0 (S (List.length ls))) w)).
Proof.
  split; [reflexivity|]. split; [reflexivity|]. split.
  - intros ls fuel Hhost Hfuel. unfold Comments.anterior, py_bind.
    rewrite (anterior_lines_collects _ ls 0%nat fuel w Hhost Hfuel).
    reflexivity.
  - intros ls fuel Hhost Hfuel. unfold Comments.posterior, py_bind.
    rewrite (posterior_lines_collects _ ls 0%nat fuel w Hhost Hfuel).
    reflexivity.
Qed.

End CommentsFacts.

(** C4 as stated fails for [anterior] and [posterior].  At [0x1002] the
    reference database holds two anterior lines and one posterior line:
    [anterior] makes three host calls and returns a string no call
    answered, [posterior] makes two calls. *)
Lemma anterior_is_not_one_host_call :
  let self := Comments.init 0x1002 in
  let w := Ida.fresh RefIda.idb0 in
  Comments.anterior 10 self w =
    (Returns ("first" ++ newline ++ "second"),
     Claims.logged [Ida.idc_LineA 0x1002 0; Ida.idc_LineA 0x1002 1;
                    Ida.idc_LineA 0x1002 2] w) /\
  Comments.posterior 10 self w =
    (Returns "after",
     Claims.logged [Ida.idc_LineB 0x1002 0; Ida.idc_LineB 0x1002 1] w) /\
  ~ Claims.forwards_one_call RefIda.idb0
      (Claims.as_optional (Comments.anterior 10 self)) /\
  ~ Claims.forwards_one_call RefIda.idb0
      (Claims.as_optional (Comments.posterior 10 self)).
Proof.
  intros self w. split; [vm_compute; reflexivity|]. split; [vm_compute; reflexivity|].
  split; intros (c & answer & Hlog & _); vm_compute in Hlog; discriminate Hlog.
Qed.

(** The single-call getters do forward one call on that database. *)
Example regular_is_one_host_call :
  Claims.forwards_one_call RefIda.idb0 (Comments.regular (Comments.init 0x1002)) /\
  Claims.forwards_one_call RefIda.idb0 (Comments.repeat (Comments.init 0x1002)).
Proof.
  split.
  - exists (Ida.idc_Comment 0x1002), (Some "tail"). repeat split; reflexivity.
  - exists (Ida.idc_RptCmt 0x1002), None. repeat split; reflexivity.
Qed.

(** A use of C4's loop case: the two anterior lines at [0x1002]. *)
Lemma comment_getters_witness :
  let self := Comments.init 0x1002 in
  let w := Ida.fresh RefIda.idb0 in
  (forall i, (i <= 2)%nat -> Ida.LineA (Ida.db w) 0x1002 i = ["first"; "second"] !! i) /\
  (2 < 3)%nat /\
  Comments.anterior 3 self w =
    (Returns (join newline ["first"; "second"]),
     Claims.logged (Claims.calls_from Ida.idc_LineA 0x1002 0 3) w).
Proof.
  intros self w.
  assert (Hhost : forall i, (i <= List.length ["first"; "second"])%nat ->
                    Ida.LineA (Ida.db w) (Comments._ea self) i
                    = ["first"; "second"] !! i).
  { intros i Hi. simpl in Hi.
    destruct i as [|[|[|i]]]; [reflexivity | reflexivity | reflexivity | lia]. }
  assert (Hfuel : (List.length ["first"; "second"] < 3)%nat) by (simpl; lia).
  split; [exact Hhost|]. split; [exact Hfuel|].
  exact (proj1 (proj2 (proj2 (comment_getters self w)))
           ["first"; "second"] 3%nat Hhost Hfuel).
Defined.

(** * Facts about the codec proxy *)

Section SplitFacts.
Variable sep : ascii.

(** [String.append] does not unfold under [simpl]; its second equation. *)
Lemma append_cons (x : ascii) (a b : string) :
  String x a ++ b = String x (a ++ b).
Proof. reflexivity. Qed.

Lemma append_assoc_string (a b c : string) : (a ++ b) ++ c = a ++ (b ++ c).
Proof.
  induction a as [|x a IH]; [reflexivity|].
  rewrite !append_cons, IH. reflexivity.
Qed.

Lemma split_not_nil (s : string) : Proxy.split sep s <> [].
Proof.
  destruct s as [|c s]; simpl; [discriminate|].
  case_bool_decide; [discriminate|].
  destruct (Proxy.split sep s); discriminate.
Qed.

(** No piece contains the separator. *)
Lemma split_free (s : string) : Forall (free_of sep) (Proxy.split sep s).
Proof.
  induction s as [|c s IH]; simpl.
  - constructor; [|constructor]. intros [].
  - case_bool_decide as Hc.
    + constructor; [intros [] | exact IH].
    + destruct (Proxy.split sep s) as [|piece pieces].
      * constructor; [|constructor]. intros [He|[]]. congruence.
      * inversion IH as [|? ? Hp Hps]; subst.
        constructor; [|exact Hps].
        intros [He|Hin]; [congruence | exact (Hp Hin)].
Qed.

(** Joining the pieces with the separator gives the string back. *)
Lemma join_split (s : string) :
  join (String sep "") (Proxy.split sep s) = s.
Proof.
  induction s as [|c s IH]; simpl; [reflexivity|].
  pose proof (split_not_nil s) as Hne.
  case_bool_decide as Hc.
  - subst c. destruct (Proxy.split sep s) as [|piece pieces]; [congruence|].
    change (join (String sep "") ("" :: piece :: pieces))
      with ("" ++ String sep "" ++ join (String sep "") (piece :: pieces)).
    rewrite IH. reflexivity.
  - destruct (Proxy.split sep s) as [|piece pieces]; [congruence|].
    destruct pieces as [|piece' pieces]; simpl in *; rewrite <- IH;
      [reflexivity | apply append_cons].
Qed.

Lemma join_snoc (d : string) (l : list string) (x : string) :
  l <> [] -> join d (l ++ [x]) = join d l ++ d ++ x.
Proof.
  induction l as [|y l IH]; intros Hne; [congruence|].
  destruct l as [|z l]; [reflexivity|].
  change (join d ((y :: z :: l) ++ [x]))
    with (y ++ d ++ join d ((z :: l) ++ [x])).
  rewrite IH by discriminate.
  change (join d (y :: z :: l)) with (y ++ d ++ join d (z :: l)).
  rewrite !append_assoc_string. reflexivity.
Qed.

(** The last piece is the part of the string after the last separator. *)
Lemma last_component (s : string) :
  exists prefix comp,
    last (Proxy.split sep s) = Some comp /\
    s = prefix ++ comp /\
    free_of sep comp /\
    (prefix = "" \/ exists p, prefix = p ++ String sep "").
Proof.
  pose proof (split_not_nil s) as Hne.
  pose proof (split_free s) as Hfree.
  pose proof (join_split s) as Hjoin.
  destruct (Proxy.split sep s) as [|piece init _] using rev_ind; [congruence|].
  clear Hne.
  apply Forall_app in Hfree as [_ Hfree]. inversion Hfree; subst.
  destruct init as [|y init].
  - exists "", piece. rewrite last_snoc. simpl. auto.
  - exists (join (String sep "") (y :: init) ++ String sep ""), piece.
    rewrite last_snoc, join_snoc by discriminate.
    rewrite append_assoc_string. repeat split; eauto.
Qed.
End SplitFacts.

(** * More facts about [MenuManager] *)

Section MenuManagerUse.
Import Qt QtUse.
Context {gui qobj : Type} `{H : Host gui qobj}.
Implicit Types (s : state gui qobj) (name : string) (cs : list call).

(** No call takes anything away from the manager. *)
Lemma perform_keeps (c : call) s :
  _window (self (snd (perform c s))) = _window (self s) /\
  _menu (self (snd (perform c s))) = _menu (self s) /\
  _menus (self s) ⊆ _menus (self (snd (perform c s))).
Proof.
  destruct c as [name|name|]; simpl.
  - destruct (_menus (self s) !! name) eqn:Hm.
    + rewrite add_menu_registered by eauto. simpl. auto.
    + rewrite add_menu_fresh by exact Hm. simpl.
      repeat split; [].
      apply insert_subseteq. exact Hm.
  - rewrite remove_menu_self. auto.
  - destruct (clear_self s) as [_ ->]. auto.
Qed.

Lemma perform_all_keeps cs s :
  _window (self (perform_all cs s)) = _window (self s) /\
  _menu (self (perform_all cs s)) = _menu (self s) /\
  _menus (self s) ⊆ _menus (self (perform_all cs s)).
Proof.
  revert s. induction cs as [|c cs IH]; intros s; simpl; [auto|].
  destruct (IH (snd (perform c s))) as (Hw & Hb & Hm).
  destruct (perform_keeps c s) as (Hw' & Hb' & Hm').
  rewrite Hw, Hb. repeat split; [assumption | assumption |].
  etransitivity; eassumption.
Qed.

(** X1: whatever calls are made on a manager, raising or not, an entry of
    the mapping stays, bound to the same menu, and the manager keeps the
    window and the menu bar it found when it was made. *)
Theorem registered_menus_stay cs s name (menu : qobj) :
  _menus (self s) !! name = Some menu ->
  _menus (self (perform_all cs s)) !! name = Some menu /\
  _menu (self (perform_all cs s)) = _menu (self s) /\
  _window (self (perform_all cs s)) = _window (self s).
Proof.
  intros Hm. destruct (perform_all_keeps cs s) as (Hw & Hb & Hsub).
  repeat split; [|assumption|assumption].
  eapply lookup_weaken; eassumption.
Qed.

(** X2: a name can be added once in the life of a manager: after
    [add_menu(name)] has returned, [add_menu(name)] raises
    [MenuAlreadyExists], whatever calls were made in between, [remove_menu]
    and [clear] included. *)
Theorem add_menu_succeeds_once cs s name :
  fst (add_menu name s) = Returns tt ->
  fst (add_menu name (perform_all cs (snd (add_menu name s))))
    = Raises (MenuAlreadyExists name).
Proof.
  intros Hr.
  destruct (_menus (self s) !! name) eqn:Hm.
  { rewrite add_menu_registered in Hr by eauto. discriminate. }
  rewrite add_menu_registered; [reflexivity|].
  destruct (perform_all_keeps cs (snd (add_menu name s))) as (_ & _ & Hsub).
  eexists. eapply lookup_weaken; [|exact Hsub].
  rewrite add_menu_fresh by exact Hm. simpl. apply lookup_insert_eq.
Qed.

(** X3: [remove_menu(name)] raises [MenuNotFound] exactly when [name] is not
    a key of the mapping.  For a registered name it returns; the host has
    removed the action of the registered menu from the manager's menu bar,
    and nothing else has changed. *)
Theorem remove_menu_raises_iff_missing name s :
  (fst (remove_menu name s) = Raises (MenuNotFound name)
     <-> name ∉ dom (_menus (self s))) /\
  (forall menu : qobj,
     _menus (self s) !! name = Some menu ->
     fst (remove_menu name s) = Returns tt /\
     host (snd (remove_menu name s)) =
       removeAction (host s) (_menu (self s)) (menuAction (host s) menu) /\
     self (snd (remove_menu name s)) = self s).
Proof.
  split.
  - rewrite not_elem_of_dom. split.
    + intros Hr. destruct (_menus (self s) !! name) as [menu|] eqn:Hm; [|reflexivity].
      rewrite (remove_menu_registered name s menu Hm) in Hr. discriminate.
    + intros Hm. unfold remove_menu, py_bind, get; simpl.
      apply contains_false in Hm. rewrite Hm. reflexivity.
  - intros menu Hm. rewrite (remove_menu_registered name s menu Hm).
    simpl. auto.
Qed.

Lemma clear_loop_is_remove_each (l : list (string * qobj)) :
  forall s,
    (forall k v, (k, v) ∈ l -> _menus (self s) !! k = Some v) ->
    clear_loop (_menu (self s)) (snd <$> l) s = remove_each (fst <$> l) s.
Proof.
  induction l as [|[k v] l IH]; intros s Hl; [reflexivity|].
  simpl. unfold py_bind at 3.
  rewrite (remove_menu_registered k s v) by (apply Hl; left).
  unfold py_bind, QMenu_menuAction, QMenuBar_removeAction; simpl.
  set (s1 := set_host _ s).
  change (_menu (self s)) with (_menu (self s1)).
  apply IH. intros k' v' Hin. subst s1. simpl. apply Hl. right. exact Hin.
Qed.

(** X4: [clear()] never raises, and does to the host what calling
    [remove_menu] for every registered name does, one name after the
    other. *)
Theorem clear_is_remove_each s :
  fst (clear s) = Returns tt /\
  clear s = remove_each (fst <$> map_to_list (_menus (self s))) s.
Proof.
  split; [apply clear_self|].
  unfold clear, py_bind at 1, get. cbv beta iota.
  apply clear_loop_is_remove_each.
  intros k v Hin. apply elem_of_map_to_list in Hin. exact Hin.
Qed.

End MenuManagerUse.

(** A use of X1: ["MyMenu"], added to a new manager, survives
    [remove_menu], [clear] and a failed [add_menu]. *)
Lemma registered_menus_stay_witness :
  let s := snd (Qt.add_menu "MyMenu" (Qt.init Qt.ref_gui0)) in
  let cs := [QtUse.Remove "MyMenu"; QtUse.Clear; QtUse.Add "MyMenu";
             QtUse.Remove "Other"] in
  Qt._menus (Qt.self s) !! "MyMenu" = Some 10%nat /\
  Qt._menus (Qt.self (QtUse.perform_all cs s)) !! "MyMenu" = Some 10%nat.
Proof.
  intros s cs.
  assert (Hm : Qt._menus (Qt.self s) !! "MyMenu" = Some 10%nat)
    by (vm_compute; reflexivity).
  split; [exact Hm|].
  exact (proj1 (registered_menus_stay cs s "MyMenu" 10%nat Hm)).
Defined.

(** A use of X2: after [remove_menu] and [clear], ["MyMenu"] still cannot
    be added a second time. *)
Lemma add_menu_succeeds_once_witness :
  let s := Qt.init Qt.ref_gui0 in
  let cs := [QtUse.Remove "MyMenu"; QtUse.Clear] in
  fst (Qt.add_menu "MyMenu" s) = Returns tt /\
  fst (Qt.add_menu "MyMenu" (QtUse.perform_all cs (snd (Qt.add_menu "MyMenu" s))))
    = Raises (MenuAlreadyExists "MyMenu").
Proof.
  intros s cs.
  assert (Hr : fst (Qt.add_menu "MyMenu" s) = Returns tt) by reflexivity.
  split; [exact Hr|].
  exact (add_menu_succeeds_once cs s "MyMenu" Hr).
Defined.

(** A use of X3: removing the menu just added takes its action off the
    reference menu bar. *)
Lemma remove_menu_raises_iff_missing_witness :
  let s := snd (Qt.add_menu "MyMenu" (Qt.init Qt.ref_gui0)) in
  Qt._menus (Qt.self s) !! "MyMenu" = Some 10%nat /\
  Qt.bar_actions (Qt.host s) = [10%nat] /\
  fst (Qt.remove_menu "MyMenu" s) = Returns tt /\
  Qt.bar_actions (Qt.host (snd (Qt.remove_menu "MyMenu" s))) = [].
Proof.
  intros s.
  assert (Hm : Qt._menus (Qt.self s) !! "MyMenu" = Some 10%nat)
    by (vm_compute; reflexivity).
  destruct (proj2 (remove_menu_raises_iff_missing "MyMenu" s) 10%nat Hm)
    as (Hr & Hh & _).
  split; [exact Hm|]. split; [reflexivity|]. split; [exact Hr|].
  rewrite Hh. vm_compute. reflexivity.
Defined.

(** * More facts about [Line] *)

Section LineWalk.
Import Ida Claims.
Context {idb : Type} `{H : Host idb}.
Implicit Types (w : world idb) (l : Line.t).

Lemma next_run l w :
  Line.next l w =
    (Returns
       {| Line._ea :=
            get_item_head (db w) (Line.ea l + get_item_size (db w) (Line.ea l));
          Line._comments :=
            Comments.init (Line.ea l + get_item_size (db w) (Line.ea l)) |},
     logged [idaapi_get_item_size (Line.ea l);
             idaapi_get_item_head
               (Line.ea l + get_item_size (db w) (Line.ea l))] w).
Proof.
  unfold Line.next, Line.endEA, Line.size, Line.init, py_bind, query, logged;
    simpl.
  rewrite <- app_assoc. reflexivity.
Qed.

Lemma prev_run l w :
  Line.prev l w =
    (Returns {| Line._ea := get_item_head (db w) (Line.ea l - 1);
                Line._comments := Comments.init (Line.ea l - 1) |},
     logged [idaapi_get_item_head (Line.ea l - 1)] w).
Proof. reflexivity. Qed.

(** X5: [line.next.prev].  Neither property raises: [line.next] is the line
    made from the end of the line, [line.next.prev] the line made from the
    address before the [ea] of [line.next].  When the host says that the
    address after the line starts an item and that the byte before it
    belongs to the line, [line.next] starts where the line ends and
    [line.next.prev] has the [ea] of the line, while its comments are those
    of the last byte of the line, which is not its first byte unless the
    line is one byte long. *)
Theorem next_then_prev l w :
  let d := db w in
  let size := get_item_size d (Line.ea l) in
  let after := Line.ea l + size in
  exists n p w1 w2,
    Line.next l w = (Returns n, w1) /\
    Line.prev n w1 = (Returns p, w2) /\
    db w2 = d /\
    Lines.made_from n = after /\
    Line.ea n = get_item_head d after /\
    Lines.made_from p = Line.ea n - 1 /\
    Line.ea p = get_item_head d (Line.ea n - 1) /\
    (get_item_head d after = after ->
     get_item_head d (after - 1) = Line.ea l ->
     Line.ea n = after /\
     Line.ea p = Line.ea l /\
     Lines.made_from p = after - 1 /\
     (Lines.made_from p = Line.ea l <-> size = 1)).
Proof.
  intros d size after.
  eexists _, _, _, _. split; [apply next_run|].
  split; [apply prev_run|].
  unfold Lines.made_from. simpl. fold d. fold size. fold after.
  repeat (split; [reflexivity|]).
  intros Hafter Hlast. rewrite Hafter.
  repeat split; try assumption; unfold after; lia.
Qed.

End LineWalk.

(** A use of X5: the line at [0x1000] of the reference database, four
    bytes long. *)
Lemma next_then_prev_witness :
  let l := {| Line._ea := 0x1000; Line._comments := Comments.init 0x1000 |} in
  let w := Ida.fresh RefIda.idb0 in
  Ida.get_item_head RefIda.idb0 0x1004 = 0x1004 /\
  Ida.get_item_head RefIda.idb0 0x1003 = 0x1000 /\
  exists n p w1 w2,
    Line.next l w = (Returns n, w1) /\ Line.prev n w1 = (Returns p, w2) /\
    Line.ea p = 0x1000 /\ Lines.made_from p = 0x1003.
Proof.
  intros l w.
  assert (H1 : Ida.get_item_head (Ida.db w)
                 (Line.ea l + Ida.get_item_size (Ida.db w) (Line.ea l))
               = Line.ea l + Ida.get_item_size (Ida.db w) (Line.ea l))
    by reflexivity.
  assert (H2 : Ida.get_item_head (Ida.db w)
                 (Line.ea l + Ida.get_item_size (Ida.db w) (Line.ea l) - 1)
               = Line.ea l)
    by reflexivity.
  split; [reflexivity|]. split; [reflexivity|].
  destruct (next_then_prev l w)
    as (n & p & w1 & w2 & Hn & Hp & _ & _ & _ & _ & _ & Hhost).
  destruct (Hhost H1 H2) as (_ & He & Hm & _).
  exists n, p, w1, w2. repeat split; assumption.
Defined.

(** * Facts about the setters of [Comments] *)

Section ExtraLineWrites.
Import Ida Claims Extra.
Context {idb : Type}.
Variables (line : idb -> Z -> nat -> option string)
          (ext : idb -> Z -> nat -> string -> idb)
          (del : idb -> Z -> nat -> idb).
Hypothesis Hkeeps : keeps_lines line ext del.

Lemma write_lines_below ea (ls : list string) :
  forall first d j,
    (j < first)%nat ->
    line (write_lines ext ea first ls d) ea j = line d ea j.
Proof.
  destruct Hkeeps as (_ & Hbelow & _).
  induction ls as [|l ls IH]; intros first d j Hj; simpl; [reflexivity|].
  rewrite IH by lia. apply Hbelow. exact Hj.
Qed.

Lemma write_lines_read ea (ls : list string) :
  forall first d i,
    (i < List.length ls)%nat ->
    line (write_lines ext ea first ls d) ea (first + i) = ls !! i.
Proof.
  destruct Hkeeps as (Hsame & _).
  induction ls as [|l ls IH]; intros first d i Hi; simpl in *; [lia|].
  destruct i as [|i].
  - rewrite Nat.add_0_r, write_lines_below by lia. apply Hsame.
  - rewrite Nat.add_succ_r. apply (IH (S first)). lia.
Qed.

(** After the lines [ls] (at least one) have been written from index 0 and
    line [List.length ls] deleted, the host holds exactly [ls]. *)
Lemma written_then_read ea (ls : list string) d i :
  ls <> [] ->
  (i <= List.length ls)%nat ->
  line (del (write_lines ext ea 0 ls d) ea (Nat.max 1 (List.length ls))) ea i
    = ls !! i.
Proof.
  intros Hne Hi.
  destruct Hkeeps as (_ & _ & Hgone & Hrest).
  assert (Hlen : Nat.max 1 (List.length ls) = List.length ls)
    by (destruct ls; [congruence | simpl; lia]).
  rewrite Hlen.
  destruct (decide (i = List.length ls)) as [->|Hlt].
  - rewrite Hgone. symmetry. apply lookup_ge_None_2. reflexivity.
  - rewrite Hrest by lia. apply (write_lines_read ea ls 0%nat). lia.
Qed.

End ExtraLineWrites.

Section SetterFacts.
Import Ida Claims Extra.
Context {idb : Type} `{H : Host idb}.
Implicit Types (w : world idb) (ea : Z) (ls : list string).

(** The index the loop variable is left with. *)
Ltac loop_run IH :=
  unfold py_bind, command; simpl; rewrite IH; simpl;
  rewrite <- app_assoc; simpl; f_equal; f_equal.

Lemma ExtLinA_loop_run ea ls :
  forall index last w,
    Comments.ExtLinA_loop ea index last ls w =
      (Returns (match ls with [] => last | _ => index + List.length ls - 1 end)%nat,
       {| db := write_lines ExtLinA ea index ls (db w);
          log := log w ++ write_calls idc_ExtLinA ea index ls |}).
Proof.
  induction ls as [|l ls IH]; intros index last w.
  - simpl. rewrite app_nil_r. destruct w; reflexivity.
  - simpl Comments.ExtLinA_loop. loop_run IH.
    destruct ls; simpl; lia.
Qed.

Lemma ExtLinB_loop_run ea ls :
  forall index last w,
    Comments.ExtLinB_loop ea index last ls w =
      (Returns (match ls with [] => last | _ => index + List.length ls - 1 end)%nat,
       {| db := write_lines ExtLinB ea index ls (db w);
          log := log w ++ write_calls idc_ExtLinB ea index ls |}).
Proof.
  induction ls as [|l ls IH]; intros index last w.
  - simpl. rewrite app_nil_r. destruct w; reflexivity.
  - simpl Comments.ExtLinB_loop. loop_run IH.
    destruct ls; simpl; lia.
Qed.

Lemma index_after_loop ls :
  ((match ls with [] => 0 | _ => 0 + List.length ls - 1 end) + 1
   = Nat.max 1 (List.length ls))%nat.
Proof. destruct ls; simpl; lia. Qed.

(** X6: what assigning [comment] to [anterior] (or [posterior]) asks of the
    host, for the lines [ls] of [comment]: line [i] is written at index [i],
    in order, and then one line is deleted, at index [List.length ls], or at
    index 1 when [comment] has no line at all.  Line 0 is never deleted. *)
Theorem extra_line_setters (self : Comments.t) (comment : string) w :
  let ea := Comments._ea self in
  let ls := splitlines comment in
  let n := Nat.max 1 (List.length ls) in
  Comments.set_anterior self comment w =
    (Returns tt,
     {| db := DelExtLnA (write_lines ExtLinA ea 0 ls (db w)) ea n;
        log := log w ++ write_calls idc_ExtLinA ea 0 ls ++ [idc_DelExtLnA ea n] |}) /\
  Comments.set_posterior self comment w =
    (Returns tt,
     {| db := DelExtLnB (write_lines ExtLinB ea 0 ls (db w)) ea n;
        log := log w ++ write_calls idc_ExtLinB ea 0 ls ++ [idc_DelExtLnB ea n] |}).
Proof.
  intros ea ls n. subst ea ls n. split.
  - unfold Comments.set_anterior, py_bind. rewrite ExtLinA_loop_run.
    unfold command; simpl. rewrite index_after_loop, <- app_assoc. reflexivity.
  - unfold Comments.set_posterior, py_bind. rewrite ExtLinB_loop_run.
    unfold command; simpl. rewrite index_after_loop, <- app_assoc. reflexivity.
Qed.

Lemma set_anterior_db (self : Comments.t) (comment : string) w :
  Comments.set_anterior self comment w =
    (Returns tt, snd (Comments.set_anterior self comment w)) /\
  db (snd (Comments.set_anterior self comment w)) =
    DelExtLnA (write_lines ExtLinA (Comments._ea self) 0 (splitlines comment) (db w))
              (Comments._ea self) (Nat.max 1 (List.length (splitlines comment))).
Proof.
  unfold Comments.set_anterior, py_bind. rewrite ExtLinA_loop_run.
  unfold command; simpl. rewrite index_after_loop. split; reflexivity.
Qed.

Lemma set_posterior_db (self : Comments.t) (comment : string) w :
  Comments.set_posterior self comment w =
    (Returns tt, snd (Comments.set_posterior self comment w)) /\
  db (snd (Comments.set_posterior self comment w)) =
    DelExtLnB (write_lines ExtLinB (Comments._ea self) 0 (splitlines comment) (db w))
              (Comments._ea self) (Nat.max 1 (List.length (splitlines comment))).
Proof.
  unfold Comments.set_posterior, py_bind. rewrite ExtLinB_loop_run.
  unfold command; simpl. rewrite index_after_loop. split; reflexivity.
Qed.

(** X7: round trip.  On a host that keeps extra lines as they are written,
    assigning a comment of at least one line to [anterior] and reading
    [anterior] back gives the lines of the comment joined by newlines,
    whatever lines were there before; the same for [posterior]. *)
Theorem extra_lines_round_trip (self : Comments.t) (comment : string)
    (fuel : nat) w :
  splitlines comment <> [] ->
  (List.length (splitlines comment) < fuel)%nat ->
  (keeps_lines LineA ExtLinA DelExtLnA ->
   fst (and_then (Comments.set_anterior self comment)
                 (Comments.anterior fuel self) w)
     = Returns (join newline (splitlines comment))) /\
  (keeps_lines LineB ExtLinB DelExtLnB ->
   fst (and_then (Comments.set_posterior self comment)
                 (Comments.posterior fuel self) w)
     = Returns (join newline (splitlines comment))).
Proof.
  intros Hne Hfuel. split; intros Hk.
  - destruct (set_anterior_db self comment w) as [Hrun Hdb].
    unfold and_then, py_bind. rewrite Hrun.
    unfold Comments.anterior, py_bind.
    rewrite (anterior_lines_collects _ (splitlines comment) 0%nat fuel);
      [reflexivity | | exact Hfuel].
    intros i Hi. rewrite Hdb. simpl.
    apply (written_then_read LineA ExtLinA DelExtLnA Hk); assumption.
  - destruct (set_posterior_db self comment w) as [Hrun Hdb].
    unfold and_then, py_bind. rewrite Hrun.
    unfold Comments.posterior, py_bind.
    rewrite (posterior_lines_collects _ (splitlines comment) 0%nat fuel);
      [reflexivity | | exact Hfuel].
    intros i Hi. rewrite Hdb. simpl.
    apply (written_then_read LineB ExtLinB DelExtLnB Hk); assumption.
Qed.

(** X8: a comment without lines does not clear.  On a host that keeps extra
    lines as they are written, if the comment assigned to [anterior] has no
    line (the empty string, for [str.splitlines]) and there was a first
    anterior line, reading [anterior] back gives that old first line: only
    the lines after it are gone.  The same for [posterior]. *)
Theorem empty_comment_keeps_first_line (self : Comments.t) (comment : string)
    (old : string) (fuel : nat) w :
  splitlines comment = [] ->
  (2 <= fuel)%nat ->
  (keeps_lines LineA ExtLinA DelExtLnA ->
   LineA (db w) (Comments._ea self) 0 = Some old ->
   fst (and_then (Comments.set_anterior self comment)
                 (Comments.anterior fuel self) w)
     = Returns old) /\
  (keeps_lines LineB ExtLinB DelExtLnB ->
   LineB (db w) (Comments._ea self) 0 = Some old ->
   fst (and_then (Comments.set_posterior self comment)
                 (Comments.posterior fuel self) w)
     = Returns old).
Proof.
  intros Hnone Hfuel. split; intros (_ & _ & Hgone & Hrest) Hold.
  - destruct (set_anterior_db self comment w) as [Hrun Hdb].
    unfold and_then, py_bind. rewrite Hrun.
    unfold Comments.anterior, py_bind.
    rewrite (anterior_lines_collects _ [old] 0%nat fuel);
      [reflexivity | | simpl; lia].
    intros i Hi. rewrite Hdb, Hnone. simpl in *.
    destruct i as [|[|i]]; [|apply Hgone|lia].
    rewrite Hrest by lia. exact Hold.
  - destruct (set_posterior_db self comment w) as [Hrun Hdb].
    unfold and_then, py_bind. rewrite Hrun.
    unfold Comments.posterior, py_bind.
    rewrite (posterior_lines_collects _ [old] 0%nat fuel);
      [reflexivity | | simpl; lia].
    intros i Hi. rewrite Hdb, Hnone. simpl in *.
    destruct i as [|[|i]]; [|apply Hgone|lia].
    rewrite Hrest by lia. exact Hold.
Qed.

End SetterFacts.

(** The sparse database keeps extra lines as they are written. *)
Lemma sparse_keeps_lines :
  Extra.keeps_lines (Ida.LineA (idb := Extra.sparse_idb)) Ida.ExtLinA Ida.DelExtLnA /\
  Extra.keeps_lines (Ida.LineB (idb := Extra.sparse_idb)) Ida.ExtLinB Ida.DelExtLnB.
Proof.
  split; repeat split; intros; simpl; unfold Extra.update;
    case_bool_decide; try reflexivity; try lia; intuition lia.
Qed.

(** A use of X7: two lines written over the two old ones at address 8. *)
Lemma extra_lines_round_trip_witness :
  let self := Comments.init 8 in
  let comment := "x" ++ newline ++ "y" in
  let w := Ida.fresh Extra.sparse1 in
  Ida.splitlines (idb := Extra.sparse_idb) comment <> [] /\
  (List.length (Ida.splitlines (idb := Extra.sparse_idb) comment) < 3)%nat /\
  fst (and_then (Comments.set_anterior self comment) (Comments.anterior 3 self) w)
    = Returns comment /\
  fst (and_then (Comments.set_posterior self comment) (Comments.posterior 3 self) w)
    = Returns comment.
Proof.
  intros self comment w.
  assert (Hne : Ida.splitlines (idb := Extra.sparse_idb) comment <> [])
    by (vm_compute; discriminate).
  assert (Hfuel : (List.length (Ida.splitlines (idb := Extra.sparse_idb) comment) < 3)%nat)
    by (vm_compute; lia).
  destruct (extra_lines_round_trip self comment 3 w Hne Hfuel) as [Ha Hb].
  split; [exact Hne|]. split; [exact Hfuel|]. split.
  - exact (Ha (proj1 sparse_keeps_lines)).
  - exact (Hb (proj2 sparse_keeps_lines)).
Defined.

(** A use of X8: assigning the empty string at address 8, where the
    anterior lines were ["old"] and ["older"], leaves ["old"]. *)
Lemma empty_comment_keeps_first_line_witness :
  let self := Comments.init 8 in
  let w := Ida.fresh Extra.sparse1 in
  Ida.splitlines (idb := Extra.sparse_idb) "" = [] /\
  Ida.LineA (Ida.db w) 8 0 = Some "old" /\
  Ida.LineA (Ida.db w) 8 1 = Some "older" /\
  fst (and_then (Comments.set_anterior self "") (Comments.anterior 2 self) w)
    = Returns "old".
Proof.
  intros self w.
  assert (Hnone : Ida.splitlines (idb := Extra.sparse_idb) "" = []) by reflexivity.
  assert (Hold : Ida.LineA (Ida.db w) (Comments._ea self) 0 = Some "old")
    by reflexivity.
  split; [exact Hnone|]. split; [exact Hold|]. split; [reflexivity|].
  exact (proj1 (empty_comment_keeps_first_line self "" "old" 2 w Hnone
                  (le_n 2))
           (proj1 sparse_keeps_lines) Hold).
Defined.

(** * Facts about the generator [lines] *)

Section LinesFacts.
Import Ida Claims Lines.
Context {idb : Type} `{H : Host idb}.
Variable fix_addresses : idb -> option Z -> option Z -> Z * Z.
Implicit Types (w : world idb) (l : Line.t) (ls : list Line.t).

(** One round of the forward loop. *)
Lemma forward_step fuel item end_ w :
  item < end_ ->
  forward (S fuel) item end_ w =
    (let r := forward fuel (item + get_item_size (db w) item) end_
                (logged [idaapi_get_item_head item; idaapi_get_item_size item] w) in
     match fst r with
     | Returns more =>
         (Returns ({| Line._ea := get_item_head (db w) item;
                      Line._comments := Comments.init item |} :: more), snd r)
     | Raises e => (Raises e, snd r)
     | Diverges => (Diverges, snd r)
     end).
Proof.
  intros Hlt. simpl. rewrite bool_decide_eq_true_2 by exact Hlt.
  unfold py_bind. rewrite init_at_address. unfold query, logged; simpl.
  rewrite <- app_assoc. simpl.
  destruct (forward fuel _ end_ _) as [[more|e|] w']; reflexivity.
Qed.

Lemma forward_stop fuel item end_ w :
  end_ <= item -> forward (S fuel) item end_ w = (Returns [], w).
Proof.
  intros Hge. simpl. rewrite bool_decide_eq_false_2 by lia. reflexivity.
Qed.

Lemma backward_step fuel item start w :
  item > start ->
  backward (S fuel) item start w =
    (let r := backward fuel (get_item_head (db w) (item - 1)) start
                (logged [idaapi_get_item_head item;
                         idaapi_get_item_head (item - 1)] w) in
     match fst r with
     | Returns more =>
         (Returns ({| Line._ea := get_item_head (db w) item;
                      Line._comments := Comments.init item |} :: more), snd r)
     | Raises e => (Raises e, snd r)
     | Diverges => (Diverges, snd r)
     end).
Proof.
  intros Hgt. simpl. rewrite bool_decide_eq_true_2 by exact Hgt.
  unfold py_bind. rewrite init_at_address. unfold query, logged; simpl.
  rewrite <- app_assoc. simpl.
  destruct (backward fuel _ start _) as [[more|e|] w']; reflexivity.
Qed.

Lemma backward_stop fuel item start w :
  item <= start -> backward (S fuel) item start w = (Returns [], w).
Proof.
  intros Hle. simpl. rewrite bool_decide_eq_false_2 by lia. reflexivity.
Qed.

(** The forward loop on a host whose items have a positive size. *)
Lemma forward_run end_ :
  forall fuel item w,
    (forall x, 0 < get_item_size (db w) x) ->
    (Z.to_nat (end_ - item) < fuel)%nat ->
    exists ls w',
      forward fuel item end_ w = (Returns ls, w') /\
      db w' = db w /\
      Forall (fun l => item <= made_from l < end_ /\
                       Line.ea l = get_item_head (db w) (made_from l)) ls /\
      StronglySorted Z.lt (made_from <$> ls) /\
      match ls with
      | [] => end_ <= item
      | l :: _ => made_from l = item /\ item < end_
      end.
Proof.
  induction fuel as [|fuel IH]; intros item w Hsize Hfuel; [lia|].
  destruct (decide (item < end_)) as [Hlt|Hge].
  - rewrite forward_step by exact Hlt.
    set (w1 := logged _ w).
    pose proof (Hsize item) as Hpos.
    destruct (IH (item + get_item_size (db w) item) w1) as
      (more & w' & Hrun & Hdb & Hall & Hsorted & _); [exact Hsize | lia |].
    cbv zeta. rewrite Hrun. simpl.
    exists ({| Line._ea := get_item_head (db w) item;
               Line._comments := Comments.init item |} :: more), w'.
    split; [reflexivity|]. split; [exact Hdb|].
    split; [|split; [|split; [reflexivity | exact Hlt]]].
    + constructor; [unfold made_from; simpl; split; [lia | reflexivity]|].
      eapply Forall_impl; [exact Hall|]. simpl. intros l [Hb He].
      split; [lia | exact He].
    + simpl. constructor; [exact Hsorted|].
      apply Forall_fmap. eapply Forall_impl; [exact Hall|].
      unfold made_from. simpl. intros l [Hb _]. lia.
  - rewrite forward_stop by lia. exists [], w.
    repeat split; [constructor | constructor | lia].
Qed.

(** The backward loop on a host whose item heads are not above the address
    asked about. *)
Lemma backward_run start :
  forall fuel item w,
    (forall x, get_item_head (db w) x <= x) ->
    (Z.to_nat (item - start) < fuel)%nat ->
    exists ls w',
      backward fuel item start w = (Returns ls, w') /\
      db w' = db w /\
      Forall (fun l => start < made_from l <= item /\
                       Line.ea l = get_item_head (db w) (made_from l)) ls /\
      StronglySorted Z.gt (made_from <$> ls) /\
      match ls with
      | [] => item <= start
      | l :: _ => made_from l = item /\ start < item
      end.
Proof.
  induction fuel as [|fuel IH]; intros item w Hhead Hfuel; [lia|].
  destruct (decide (item > start)) as [Hgt|Hle].
  - rewrite backward_step by exact Hgt.
    set (w1 := logged _ w).
    pose proof (Hhead (item - 1)) as Hbelow.
    destruct (IH (get_item_head (db w) (item - 1)) w1) as
      (more & w' & Hrun & Hdb & Hall & Hsorted & _); [exact Hhead | lia |].
    cbv zeta. rewrite Hrun. simpl.
    exists ({| Line._ea := get_item_head (db w) item;
               Line._comments := Comments.init item |} :: more), w'.
    split; [reflexivity|]. split; [exact Hdb|].
    split; [|split; [|split; [reflexivity | lia]]].
    + constructor; [unfold made_from; simpl; split; [lia | reflexivity]|].
      eapply Forall_impl; [exact Hall|]. simpl. intros l [Hb He].
      split; [lia | exact He].
    + simpl. constructor; [exact Hsorted|].
      apply Forall_fmap. eapply Forall_impl; [exact Hall|].
      unfold made_from. simpl. intros l [Hb _]. lia.
  - rewrite backward_stop by lia. exists [], w.
    repeat split; [constructor | constructor | lia].
Qed.

Lemma lines_forward_unfold fuel start end_ w :
  lines fix_addresses fuel start end_ false w =
    forward fuel
      (get_item_head (db w) (fst (fix_addresses (db w) start end_)))
      (snd (fix_addresses (db w) start end_))
      (logged [idaapi_get_item_head (fst (fix_addresses (db w) start end_))] w).
Proof.
  unfold lines, py_bind, get. destruct (fix_addresses (db w) start end_).
  reflexivity.
Qed.

Lemma lines_reverse_unfold fuel start end_ w :
  lines fix_addresses fuel start end_ true w =
    backward fuel
      (get_item_head (db w) (snd (fix_addresses (db w) start end_) - 1))
      (fst (fix_addresses (db w) start end_))
      (logged [idaapi_get_item_head
                 (snd (fix_addresses (db w) start end_) - 1)] w).
Proof.
  unfold lines, py_bind, get. destruct (fix_addresses (db w) start end_).
  reflexivity.
Qed.

(** X9: [lines(start, end)] on a host whose items all have a positive size,
    with [first] the item head of the fixed start and [e] the fixed end.
    The generator ends (fuel for [e - first + 1] tests is enough).  It
    yields nothing when [e <= first]; otherwise its first line is made from
    [first].  Every line is made from an address in [first, e), has the
    item head of that address as [ea], and the addresses increase strictly.
    The database is not changed. *)
Theorem lines_forward fuel (start end_ : option Z) w :
  let s := fst (fix_addresses (db w) start end_) in
  let e := snd (fix_addresses (db w) start end_) in
  let first := get_item_head (db w) s in
  (forall x, 0 < get_item_size (db w) x) ->
  (Z.to_nat (e - first) < fuel)%nat ->
  exists ls w',
    lines fix_addresses fuel start end_ false w = (Returns ls, w') /\
    db w' = db w /\
    Forall (fun l => first <= made_from l < e /\
                     Line.ea l = get_item_head (db w) (made_from l)) ls /\
    StronglySorted Z.lt (made_from <$> ls) /\
    match ls with
    | [] => e <= first
    | l :: _ => made_from l = first /\ first < e
    end.
Proof.
  intros s e first Hsize Hfuel. rewrite lines_forward_unfold.
  fold s e first.
  destruct (forward_run e fuel first (logged [idaapi_get_item_head s] w))
    as (ls & w' & Hrun & Hdb & Hrest); [exact Hsize | exact Hfuel |].
  exists ls, w'. split; [exact Hrun|]. split; [exact Hdb | exact Hrest].
Qed.

(** X10: [lines(start, end, reverse=True)] on a host whose item heads are
    never above the address asked about, with [s] the fixed start and
    [last] the item head of the fixed end minus one.  The generator ends.
    It yields nothing when [last <= s]; otherwise its first line is made
    from [last].  Every line is made from an address in (s, last], so below
    the end and strictly above [s], and the addresses decrease strictly.
    The database is not changed. *)
Theorem lines_reverse fuel (start end_ : option Z) w :
  let s := fst (fix_addresses (db w) start end_) in
  let e := snd (fix_addresses (db w) start end_) in
  let last := get_item_head (db w) (e - 1) in
  (forall x, get_item_head (db w) x <= x) ->
  (Z.to_nat (last - s) < fuel)%nat ->
  exists ls w',
    lines fix_addresses fuel start end_ true w = (Returns ls, w') /\
    db w' = db w /\
    Forall (fun l => s < made_from l <= last /\ made_from l < e /\
                     Line.ea l = get_item_head (db w) (made_from l)) ls /\
    StronglySorted Z.gt (made_from <$> ls) /\
    match ls with
    | [] => last <= s
    | l :: _ => made_from l = last /\ s < last
    end.
Proof.
  intros s e last Hhead Hfuel. rewrite lines_reverse_unfold.
  fold s e last.
  destruct (backward_run s fuel last (logged [idaapi_get_item_head (e - 1)] w))
    as (ls & w' & Hrun & Hdb & Hall & Hrest); [exact Hhead | exact Hfuel |].
  exists ls, w'. split; [exact Hrun|]. split; [exact Hdb|].
  split; [|exact Hrest].
  eapply Forall_impl; [exact Hall|]. simpl. intros l [Hb He].
  pose proof (Hhead (e - 1)) as Hlast. fold last in Hlast.
  repeat split; [lia | lia | lia | exact He].
Qed.

(** X11: the two directions do not list the same lines.  Let the fixed
    start [s] be an item head below the fixed end.  Forward, the first line
    yielded is the line at [s]; in reverse, no line made from [s] is ever
    yielded: the loop stops before it. *)
Theorem lines_reverse_skips_start fuel (start end_ : option Z) w :
  let s := fst (fix_addresses (db w) start end_) in
  let e := snd (fix_addresses (db w) start end_) in
  (forall x, 0 < get_item_size (db w) x) ->
  (forall x, get_item_head (db w) x <= x) ->
  get_item_head (db w) s = s ->
  s < e ->
  (Z.to_nat (e - s) < fuel)%nat ->
  exists fwd bwd w1 w2,
    lines fix_addresses fuel start end_ false w = (Returns fwd, w1) /\
    lines fix_addresses fuel start end_ true w = (Returns bwd, w2) /\
    made_from <$> head fwd = Some s /\
    Forall (fun l => made_from l <> s) bwd.
Proof.
  intros s e Hsize Hhead Hs Hlt Hfuel.
  rewrite lines_forward_unfold, lines_reverse_unfold. fold s e. rewrite Hs.
  destruct (forward_run e fuel s (logged [idaapi_get_item_head s] w))
    as (fwd & w1 & Hf & _ & _ & _ & Hfirst); [exact Hsize | exact Hfuel |].
  pose proof (Hhead (e - 1)) as Hlast.
  destruct (backward_run s fuel (get_item_head (db w) (e - 1))
              (logged [idaapi_get_item_head (e - 1)] w))
    as (bwd & w2 & Hb & _ & Hall & _); [exact Hhead | simpl; lia |].
  exists fwd, bwd, w1, w2. split; [exact Hf|]. split; [exact Hb|]. split.
  - destruct fwd as [|l fwd]; [lia|]. simpl. destruct Hfirst as [-> _].
    reflexivity.
  - eapply Forall_impl; [exact Hall|]. simpl. intros l [Hbound _]. lia.
Qed.

End LinesFacts.

(** The reference database has items of four bytes, which start at or
    below every address they hold. *)
Lemma ref_items_are_positive (x : Z) :
  0 < Ida.get_item_size RefIda.idb0 x /\ Ida.get_item_head RefIda.idb0 x <= x.
Proof.
  simpl. pose proof (Z.mod_pos_bound x 4 ltac:(lia)). lia.
Qed.

(** A use of X9: the lines of [0x1002, 0x100a). *)
Lemma lines_forward_witness :
  let w := Ida.fresh RefIda.idb0 in
  (forall x, 0 < Ida.get_item_size (Ida.db w) x) /\
  (Z.to_nat (0x100a - 0x1000) < 20)%nat /\
  exists ls w',
    Lines.lines Extra.ref_fix_addresses 20 (Some 0x1002) (Some 0x100a) false w
      = (Returns ls, w') /\
    StronglySorted Z.lt (Lines.made_from <$> ls).
Proof.
  intros w.
  assert (Hsize : forall x, 0 < Ida.get_item_size (Ida.db w) x)
    by (intros x; simpl; lia).
  assert (Hfuel : (Z.to_nat (0x100a - 0x1000) < 20)%nat) by (vm_compute; lia).
  split; [exact Hsize|]. split; [exact Hfuel|].
  destruct (lines_forward Extra.ref_fix_addresses 20 (Some 0x1002) (Some 0x100a)
              w Hsize Hfuel) as (ls & w' & Hrun & _ & _ & Hsorted & _).
  exists ls, w'. split; [exact Hrun | exact Hsorted].
Defined.

(** A use of X10: the same range in reverse. *)
Lemma lines_reverse_witness :
  let w := Ida.fresh RefIda.idb0 in
  (forall x, Ida.get_item_head (Ida.db w) x <= x) /\
  (Z.to_nat (0x1008 - 0x1002) < 20)%nat /\
  exists ls w',
    Lines.lines Extra.ref_fix_addresses 20 (Some 0x1002) (Some 0x100a) true w
      = (Returns ls, w') /\
    Forall (fun l => 0x1002 < Lines.made_from l <= 0x1008) ls.
Proof.
  intros w.
  assert (Hhead : forall x, Ida.get_item_head (Ida.db w) x <= x)
    by (intros x; apply ref_items_are_positive).
  assert (Hfuel : (Z.to_nat (0x1008 - 0x1002) < 20)%nat) by (vm_compute; lia).
  split; [exact Hhead|]. split; [exact Hfuel|].
  destruct (lines_reverse Extra.ref_fix_addresses 20 (Some 0x1002) (Some 0x100a)
              w Hhead Hfuel) as (ls & w' & Hrun & _ & Hall & _).
  exists ls, w'. split; [exact Hrun|].
  eapply Forall_impl; [exact Hall|]. simpl. intros l (Hb & _). exact Hb.
Defined.

(** A use of X11: the range [0x1000, 0x1008) holds the lines at [0x1000]
    and [0x1004]; in reverse only the second is listed. *)
Lemma lines_reverse_skips_start_witness :
  let w := Ida.fresh RefIda.idb0 in
  (forall x, 0 < Ida.get_item_size (Ida.db w) x) /\
  (forall x, Ida.get_item_head (Ida.db w) x <= x) /\
  Ida.get_item_head (Ida.db w) 0x1000 = 0x1000 /\
  0x1000 < 0x1008 /\
  exists fwd bwd w1 w2,
    Lines.lines Extra.ref_fix_addresses 20 (Some 0x1000) (Some 0x1008) false w
      = (Returns fwd, w1) /\
    Lines.lines Extra.ref_fix_addresses 20 (Some 0x1000) (Some 0x1008) true w
      = (Returns bwd, w2) /\
    Lines.made_from <$> head fwd = Some 0x1000 /\
    Forall (fun l => Lines.made_from l <> 0x1000) bwd.
Proof.
  intros w.
  assert (Hsize : forall x, 0 < Ida.get_item_size (Ida.db w) x)
    by (intros x; simpl; lia).
  assert (Hhead : forall x, Ida.get_item_head (Ida.db w) x <= x)
    by (intros x; apply ref_items_are_positive).
  assert (Hs : Ida.get_item_head (Ida.db w) 0x1000 = 0x1000) by reflexivity.
  assert (Hlt : 0x1000 < 0x1008) by reflexivity.
  split; [exact Hsize|]. split; [exact Hhead|]. split; [exact Hs|].
  split; [exact Hlt|].
  exact (lines_reverse_skips_start Extra.ref_fix_addresses 20
           (Some 0x1000) (Some 0x1008) w Hsize Hhead Hs Hlt
           ltac:(vm_compute; lia)).
Defined.

(** * More facts about the codec proxy *)

Section SplitMore.
Variable sep : ascii.

(** A string without the separator is its own single piece. *)
Lemma split_whole (s : string) :
  free_of sep s -> Proxy.split sep s = [s].
Proof.
  induction s as [|c s IH]; intros Hfree; simpl; [reflexivity|].
  rewrite bool_decide_eq_false_2 by (intros ->; apply Hfree; left; reflexivity).
  rewrite IH; [reflexivity|]. intros Hin. apply Hfree. right. exact Hin.
Qed.

(** Splitting at a separator splits the pieces. *)
Lemma split_at (p s : string) :
  Proxy.split sep (p ++ String sep s) = (Proxy.split sep p ++ Proxy.split sep s)%list.
Proof.
  induction p as [|c p IH].
  - simpl. rewrite bool_decide_eq_true_2 by reflexivity. reflexivity.
  - rewrite append_cons. simpl. rewrite IH.
    pose proof (split_not_nil sep p) as Hne.
    case_bool_decide; [reflexivity|].
    destruct (Proxy.split sep p); [congruence | reflexivity].
Qed.

Lemma last_split_at (p s : string) :
  free_of sep s -> last (Proxy.split sep (p ++ String sep s)) = Some s.
Proof.
  intros Hfree. rewrite split_at, (split_whole s Hfree). apply last_snoc.
Qed.
End SplitMore.


(** * The facade as a whole *)

Section FacadeFacts.
Import Ida Claims Extra Facade.
Context {idb xref_t Xref_t Instruction_t : Type}
        `{H : Ida.Host idb} `{HR : LineRest.Host idb xref_t Xref_t Instruction_t}.
Implicit Types (w : world idb) (ea : Z) (l : Line.t) (c : Comments.t).

(** The loop of [anterior] for any fuel and any host: it returns the lines
    up to the first [None], or runs out of fuel on a host that answered a
    line every time. *)
Lemma anterior_lines_total ea fuel :
  forall index w,
    (exists ls,
       (forall i, (i <= List.length ls)%nat ->
                  LineA (db w) ea (index + i) = ls !! i) /\
       (List.length ls < fuel)%nat /\
       Comments.anterior_lines fuel ea index w =
         (Returns ls, logged (calls_from idc_LineA ea index (S (List.length ls))) w)) \/
    ((forall i, (i < fuel)%nat -> is_Some (LineA (db w) ea (index + i))) /\
     fst (Comments.anterior_lines fuel ea index w) = Diverges /\
     db (snd (Comments.anterior_lines fuel ea index w)) = db w).
Proof.
  induction fuel as [|fuel IH]; intros index w.
  { right. split; [intros i Hi; lia | split; reflexivity]. }
  destruct (LineA (db w) ea index) as [line|] eqn:H0.
  - destruct (IH (S index) (logged [idc_LineA ea index] w))
      as [(ls & Hhost & Hfuel & _) | (Hall & Hdiv & Hdb)].
    + left. exists (line :: ls).
      assert (Hhost' : forall i, (i <= List.length (line :: ls))%nat ->
                LineA (db w) ea (index + i) = (line :: ls) !! i).
      { intros [|i] Hi; simpl in *.
        - rewrite Nat.add_0_r. exact H0.
        - rewrite Nat.add_succ_r. apply (Hhost i). lia. }
      split; [exact Hhost'|]. split; [simpl; lia|].
      apply anterior_lines_collects; [exact Hhost' | simpl; lia].
    + right. split.
      * intros [|i] Hi; [rewrite Nat.add_0_r, H0; eauto|].
        rewrite Nat.add_succ_r. apply (Hall i). lia.
      * simpl Comments.anterior_lines. unfold py_bind, query; simpl.
        rewrite H0.
        change {| db := db w; log := log w ++ [idc_LineA ea index] |}
          with (logged [idc_LineA ea index] w).
        destruct (Comments.anterior_lines fuel ea (S index) _)
          as [[more|e|] w']; simpl in *; try discriminate.
        split; [reflexivity | exact Hdb].
  - left. exists [].
    assert (Hhost : forall i, (i <= List.length (@nil string))%nat ->
              LineA (db w) ea (index + i) = (@nil string) !! i).
    { intros i Hi. simpl in Hi. replace i with 0%nat by lia.
      rewrite Nat.add_0_r. exact H0. }
    split; [exact Hhost|]. split; [simpl; lia|].
    apply anterior_lines_collects; [exact Hhost | simpl; lia].
Qed.

Lemma posterior_lines_total ea fuel :
  forall index w,
    (exists ls,
       (forall i, (i <= List.length ls)%nat ->
                  LineB (db w) ea (index + i) = ls !! i) /\
       (List.length ls < fuel)%nat /\
       Comments.posterior_lines fuel ea index w =
         (Returns ls, logged (calls_from idc_LineB ea index (S (List.length ls))) w)) \/
    ((forall i, (i < fuel)%nat -> is_Some (LineB (db w) ea (index + i))) /\
     fst (Comments.posterior_lines fuel ea index w) = Diverges /\
     db (snd (Comments.posterior_lines fuel ea index w)) = db w).
Proof.
  induction fuel as [|fuel IH]; intros index w.
  { right. split; [intros i Hi; lia | split; reflexivity]. }
  destruct (LineB (db w) ea index) as [line|] eqn:H0.
  - destruct (IH (S index) (logged [idc_LineB ea index] w))
      as [(ls & Hhost & Hfuel & _) | (Hall & Hdiv & Hdb)].
    + left. exists (line :: ls).
      assert (Hhost' : forall i, (i <= List.length (line :: ls))%nat ->
                LineB (db w) ea (index + i) = (line :: ls) !! i).
      { intros [|i] Hi; simpl in *.
        - rewrite Nat.add_0_r. exact H0.
        - rewrite Nat.add_succ_r. apply (Hhost i). lia. }
      split; [exact Hhost'|]. split; [simpl; lia|].
      apply posterior_lines_collects; [exact Hhost' | simpl; lia].
    + right. split.
      * intros [|i] Hi; [rewrite Nat.add_0_r, H0; eauto|].
        rewrite Nat.add_succ_r. apply (Hall i). lia.
      * simpl Comments.posterior_lines. unfold py_bind, query; simpl.
        rewrite H0.
        change {| db := db w; log := log w ++ [idc_LineB ea index] |}
          with (logged [idc_LineB ea index] w).
        destruct (Comments.posterior_lines fuel ea (S index) _)
          as [[more|e|] w']; simpl in *; try discriminate.
        split; [reflexivity | exact Hdb].
  - left. exists [].
    assert (Hhost : forall i, (i <= List.length (@nil string))%nat ->
              LineB (db w) ea (index + i) = (@nil string) !! i).
    { intros i Hi. simpl in Hi. replace i with 0%nat by lia.
      rewrite Nat.add_0_r. exact H0. }
    split; [exact Hhost|]. split; [simpl; lia|].
    apply posterior_lines_collects; [exact Hhost | simpl; lia].
Qed.

Lemma anterior_reads_lines c :
  reads_lines (fun fuel => Comments.anterior fuel c)
              (idc_LineA (Comments._ea c)) (fun d => LineA d (Comments._ea c)).
Proof.
  intros fuel w. unfold Comments.anterior, py_bind.
  destruct (anterior_lines_total (Comments._ea c) fuel 0%nat w)
    as [(ls & Hhost & Hfuel & Hrun) | (Hall & Hdiv & Hdb)].
  - left. exists ls. split; [exact Hhost|]. split; [exact Hfuel|].
    rewrite Hrun. reflexivity.
  - right. split; [exact Hall|].
    destruct (Comments.anterior_lines fuel (Comments._ea c) 0 w)
      as [[more|e|] w']; simpl in *; try discriminate.
    split; [reflexivity | exact Hdb].
Qed.

Lemma posterior_reads_lines c :
  reads_lines (fun fuel => Comments.posterior fuel c)
              (idc_LineB (Comments._ea c)) (fun d => LineB d (Comments._ea c)).
Proof.
  intros fuel w. unfold Comments.posterior, py_bind.
  destruct (posterior_lines_total (Comments._ea c) fuel 0%nat w)
    as [(ls & Hhost & Hfuel & Hrun) | (Hall & Hdiv & Hdb)].
  - left. exists ls. split; [exact Hhost|]. split; [exact Hfuel|].
    rewrite Hrun. reflexivity.
  - right. split; [exact Hall|].
    destruct (Comments.posterior_lines fuel (Comments._ea c) 0 w)
      as [[more|e|] w']; simpl in *; try discriminate.
    split; [reflexivity | exact Hdb].
Qed.

(** Every accessor of a [Comments] object forwards, about the address the
    object was made with. *)
Lemma comments_forward_own_address c : comments_forward c (Comments._ea c).
Proof.
  split; [intros w; reflexivity|].
  split; [intros w; reflexivity|].
  split; [apply anterior_reads_lines|].
  split; [apply posterior_reads_lines|].
  split; [intros comment w; reflexivity|].
  split; [intros comment w; reflexivity|].
  split; intros comment ls n w; subst ls n.
  - unfold Comments.set_anterior, py_bind. rewrite ExtLinA_loop_run.
    unfold command; simpl. rewrite index_after_loop, <- app_assoc. reflexivity.
  - unfold Comments.set_posterior, py_bind. rewrite ExtLinB_loop_run.
    unfold command; simpl. rewrite index_after_loop, <- app_assoc. reflexivity.
Qed.

End FacadeFacts.

Section FacadeClaims.
Import Ida Claims Extra Facade.
Context {idb xref_t Xref_t Instruction_t : Type}
        `{H : Ida.Host idb} `{HR : LineRest.Host idb xref_t Xref_t Instruction_t}.
Implicit Types (w : world idb) (l : Line.t) (c : Comments.t).





End FacadeClaims.

Section RawAddress.
Import Ida Claims Extra Facade.
Context {idb : Type} `{H : Ida.Host idb}.

(** C8: the [Comments] object of [Line(ea)] holds [ea] itself, not the
    item head.  When [ea] is not an item head the two addresses differ, and
    every read and every write of a comment through the line (regular,
    repeatable, anterior and posterior, getters and setters) asks the host
    about [ea]. *)
Theorem line_comments_use_raw_address a (w : world idb) (l : Line.t) w' :
  Line.init (Addr a) None w = (Returns l, w') ->
  Line.comments l = Comments.init a /\
  Line.ea l = get_item_head (db w) a /\
  (get_item_head (db w) a <> a ->
   Comments._ea (Line.comments l) <> Line.ea l) /\
  comments_forward (Line.comments l) a.
Proof.
  rewrite init_at_address. intros Hl. inversion Hl; subst; clear Hl.
  split; [reflexivity|]. split; [reflexivity|].
  split; [simpl; intros Hne Heq; apply Hne; symmetry; exact Heq|].
  apply (comments_forward_own_address (Comments.init a)).
Qed.

End RawAddress.

(** A use of C8: the line at [0x1002] starts at [0x1000], but its regular
    comment is the one stored at [0x1002], its anterior lines are those
    stored at [0x1002], and a repeatable comment is written at [0x1002]. *)
Lemma line_comments_use_raw_address_witness :
  let l := {| Line._ea := 0x1000; Line._comments := Comments.init 0x1002 |} in
  let w' := Claims.logged [Ida.idaapi_get_item_head 0x1002] (Ida.fresh RefIda.idb0) in
  Line.init (Addr 0x1002) None (Ida.fresh RefIda.idb0) = (Returns l, w') /\
  Ida.get_item_head RefIda.idb0 0x1002 <> 0x1002 /\
  Comments._ea (Line.comments l) <> Line.ea l /\
  fst (Comments.regular (Line.comments l) w') = Returns (Some "tail") /\
  Ida.log (snd (Comments.set_repeat (Line.comments l) "again" w'))
    = [Ida.idaapi_get_item_head 0x1002; Ida.idc_MakeRptCmt 0x1002 "again"].
Proof.
  intros l w'.
  assert (Hl : Line.init (Addr 0x1002) None (Ida.fresh RefIda.idb0)
               = (Returns l, w')) by reflexivity.
  assert (Hne : Ida.get_item_head RefIda.idb0 0x1002 <> 0x1002)
    by (vm_compute; discriminate).
  destruct (line_comments_use_raw_address 0x1002 (Ida.fresh RefIda.idb0) l w' Hl)
    as (_ & _ & Hdiff & Hread & _ & _ & _ & _ & Hrepeat & _).
  split; [exact Hl|]. split; [exact Hne|]. split; [exact (Hdiff Hne)|].
  split; [rewrite (Hread w'); reflexivity|].
  rewrite (Hrepeat "again" w'). reflexivity.
Defined.

(** * Facts about the module body of the codec proxy *)

Section ProxyFacts.
Import Proxy.
Context {S modobj entry : Type} `{RT : Runtime S modobj entry}.
Implicit Types (s : state S modobj entry).

(** The state in which the file is loaded: the four names are bound. *)
Lemma bind_names_run (__name__ comp : string) s :
  last (split "." __name__) = Some comp ->
  bind_names __name__ s =
    (Returns (path_join (expandvars "$sarkCodecs") (comp ++ ".py")),
     {| world := world s;
        globals :=
          <["codec_path" :=
              Str (path_join (expandvars "$sarkCodecs") (comp ++ ".py"))]>
            (<["codec_filename" := Str (comp ++ ".py")]>
               (<["name" := Str comp]>
                  (<["CODECS_DIR" := Str (expandvars "$sarkCodecs")]>
                     (globals s)))) |}).
Proof.
  intros Hlast. unfold bind_names, index_last. rewrite Hlast. reflexivity.
Qed.

Lemma load_and_export_run (__name__ path : string) s :
  load_and_export __name__ path s =
    match load_source __name__ path s with
    | (inl e, s2) => (Raises e, s2)
    | (inr m, s2) =>
        let s3 := {| world := world s2;
                     globals := <["codec" := ModuleObject m]> (globals s2) |} in
        match attr_getregentry s3 m with
        | Some g =>
            (Returns tt,
             {| world := world s3;
                globals := <["getregentry" := Object g]> (globals s3) |})
        | None => (Raises (HostRaised "AttributeError"), s3)
        end
    end.
Proof.
  unfold load_and_export, py_bind, imp_load_source.
  destruct (load_source __name__ path s) as [[e|m] s2]; [reflexivity|].
  unfold assign, modify, getattr_getregentry. cbv zeta.
  destruct (attr_getregentry _ m) as [g|]; reflexivity.
Qed.

(** C5: for a module name [__name__], let [comp] be what follows its last
    dot (all of it when there is none).  The proxy binds [CODECS_DIR],
    [name], [codec_filename] and [codec_path], then asks [imp.load_source]
    to run the file [join(CODECS_DIR, comp + ".py")] under the name
    [__name__], where [CODECS_DIR] is [expandvars("$sarkCodecs")].  When the
    load returns a module object, the proxy binds it to [codec] and binds
    its own [getregentry] to the [getregentry] of that module object; the
    other globals are as the loaded file left them.  An exception of the
    load, or a missing [getregentry], is not caught. *)
Theorem proxy_exports_codec_getregentry (__name__ : string) s :
  exists prefix comp,
    __name__ = prefix ++ comp /\
    free_of "." comp /\
    (prefix = "" \/ exists p, prefix = p ++ ".") /\
    let dir := expandvars "$sarkCodecs" in
    let path := path_join dir (comp ++ ".py") in
    let s1 :=
      {| world := world s;
         globals :=
           <["codec_path" := Str path]>
             (<["codec_filename" := Str (comp ++ ".py")]>
                (<["name" := Str comp]>
                   (<["CODECS_DIR" := Str dir]> (globals s)))) |} in
    match load_source __name__ path s1 with
    | (inl e, s2) => exec __name__ s = (Raises e, s2)
    | (inr m, s2) =>
        let s3 := {| world := world s2;
                     globals := <["codec" := ModuleObject m]> (globals s2) |} in
        match attr_getregentry s3 m with
        | Some g =>
            exec __name__ s =
              (Returns tt,
               {| world := world s3;
                  globals := <["getregentry" := Object g]> (globals s3) |})
        | None => exec __name__ s = (Raises (HostRaised "AttributeError"), s3)
        end
    end.
Proof.
  destruct (last_component "." __name__) as (prefix & comp & Hlast & Hs & Hf & Hp).
  exists prefix, comp. repeat (split; [assumption|]).
  intros dir path s1.
  assert (Hexec : exec __name__ s = load_and_export __name__ path s1).
  { unfold exec, py_bind. rewrite (bind_names_run __name__ comp s Hlast).
    reflexivity. }
  rewrite Hexec, load_and_export_run.
  destruct (load_source __name__ path s1) as [[e|m] s2]; [reflexivity|].
  cbv zeta. destruct (attr_getregentry _ m) as [g|]; reflexivity.
Qed.

(** X12: the package part of the module name plays no role in the choice of
    the file.  For a component [comp] without a dot, the proxy installed as
    [comp] and the proxy installed as [pkg.comp], for any [pkg], bind the
    same four names before the load ([name] is [comp], [codec_filename] is
    [comp + ".py"], [codec_path] is [join(CODECS_DIR, comp + ".py")]) and
    pass that same path to [imp.load_source]; [pkg] reaches the load only
    as part of the module name.  With [comp] empty (a module name that ends
    with a dot) the file is [".py"]. *)
Theorem proxy_ignores_package (pkg comp : string) s :
  free_of "." comp ->
  let dir := expandvars "$sarkCodecs" in
  let path := path_join dir (comp ++ ".py") in
  let s1 :=
    {| world := world s;
       globals :=
         <["codec_path" := Str path]>
           (<["codec_filename" := Str (comp ++ ".py")]>
              (<["name" := Str comp]>
                 (<["CODECS_DIR" := Str dir]> (globals s)))) |} in
  bind_names comp s = (Returns path, s1) /\
  bind_names (pkg ++ "." ++ comp) s = (Returns path, s1) /\
  exec comp s = load_and_export comp path s1 /\
  exec (pkg ++ "." ++ comp) s = load_and_export (pkg ++ "." ++ comp) path s1.
Proof.
  intros Hfree dir path s1.
  assert (Hwhole : last (split "." comp) = Some comp)
    by (rewrite (split_whole "." comp Hfree); reflexivity).
  assert (Hpkg : last (split "." (pkg ++ "." ++ comp)) = Some comp)
    by (apply (last_split_at "." pkg comp Hfree)).
  pose proof (bind_names_run comp comp s Hwhole) as H1.
  pose proof (bind_names_run (pkg ++ "." ++ comp) comp s Hpkg) as H2.
  split; [exact H1|]. split; [exact H2|].
  unfold exec, py_bind. rewrite H1, H2. split; reflexivity.
Qed.

End ProxyFacts.

(** On the reference run time, the proxy installed as [encodings.utf_8]
    loads [/opt/codecs/utf_8.py] and exports its [getregentry]; the file
    [latin_1.py] also rebinds the proxy's [name]; a file without
    [getregentry] and a missing file make the module body raise. *)
Example proxy_on_reference_runtime :
  let after n := snd (Proxy.exec n Proxy.ref_state0) in
  fst (Proxy.exec "encodings.utf_8" Proxy.ref_state0) = Returns tt /\
  Proxy.globals (after "encodings.utf_8") !! "codec_path"
    = Some (Proxy.Str "/opt/codecs/utf_8.py") /\
  Proxy.globals (after "encodings.utf_8") !! "getregentry"
    = Some (Proxy.Object 8%nat) /\
  Proxy.world (after "encodings.utf_8") = ["encodings.utf_8"] /\
  Proxy.globals (after "encodings.latin_1") !! "name"
    = Some (Proxy.Str "other") /\
  Proxy.globals (after "encodings.latin_1") !! "getregentry"
    = Some (Proxy.Object 1%nat) /\
  fst (Proxy.exec "empty" Proxy.ref_state0)
    = Raises (HostRaised "AttributeError") /\
  fst (Proxy.exec "encodings.nothere" Proxy.ref_state0)
    = Raises (HostRaised "IOError") /\
  Proxy.split "." "a.b..c." = ["a"; "b"; ""; "c"; ""].
Proof. repeat split; vm_compute; reflexivity. Qed.

(** A use of X12: [utf_8] and [encodings.utf_8] reach the load with the same
    path. *)
Lemma proxy_ignores_package_witness :
  free_of "." "utf_8" /\
  fst (Proxy.bind_names "utf_8" Proxy.ref_state0)
    = Returns "/opt/codecs/utf_8.py" /\
  Proxy.bind_names ("encodings" ++ "." ++ "utf_8") Proxy.ref_state0
    = Proxy.bind_names "utf_8" Proxy.ref_state0.
Proof.
  assert (Hfree : free_of "." "utf_8").
  { unfold free_of. simpl. intros Hin.
    repeat (destruct Hin as [Hin|Hin]; [discriminate Hin|]). exact Hin. }
  destruct (proxy_ignores_package "encodings" "utf_8" Proxy.ref_state0 Hfree)
    as (H1 & H2 & _).
  split; [exact Hfree|]. split.
  - rewrite H1. reflexivity.
  - rewrite H1, H2. reflexivity.
Defined.
